(** * Fee config manager precompile (precompile/fee_config_manager.go)

    A shallow embedding of the fee config manager: the fixed-width codec
    ([PackFeeConfig], [UnpackFeeConfigInput]), the storage accessors
    ([GetStoredFeeConfig], [GetFeeConfigLastChangedAt], [StoreFeeConfig])
    and the three handlers ([setFeeConfig], [getFeeConfig],
    [getFeeConfigLastChangedAt]).

    Conventions.
    - [[]byte] is [list byte]; [common.Hash] and [common.Address] are byte
      lists as well (32 and 20 bytes in the program).
    - [*big.Int] is [option Z]: [None] is the nil pointer.
    - [uint64] values are [Z] (the 64-bit truncation is written out where the
      program truncates); gas amounts are [N], the program never lets a gas
      subtraction go below zero.
    - A Go panic is the outer [None] of an [option] result.
    - The host state is an interface ([StateDB]), a type class here. *)

From Stdlib Require Import ZArith NArith List Bool Lia.
From Stdlib.Strings Require Import Byte.
From Stdlib.Strings Require String.
Import String.StringSyntax.
Delimit Scope string_scope with string.
Import ListNotations.

Local Open Scope Z_scope.

(** ** Bytes and big-endian integers (math/big, go-ethereum/common) *)

Definition bytes := list byte.

(** [common.HashLength] *)
Definition HashLength : nat := 32.

Definition Hash := bytes.
Definition Address := bytes.

(** [*big.Int]; [None] is nil. *)
Definition bigInt := option Z.

Definition Z_of_byte (b : byte) : Z := Z.of_N (Byte.to_N b).

(** Go's [byte(i)] conversion of an integer: the low eight bits. *)
Definition byte_of_Z (z : Z) : byte :=
  match Byte.of_N (Z.to_N (z mod 256)) with
  | Some b => b
  | None => x00
  end.

(** [new(big.Int).SetBytes(buf)]: [buf] read as a big-endian unsigned
    integer. *)
Definition SetBytes (buf : bytes) : Z :=
  fold_left (fun acc b => acc * 256 + Z_of_byte b) buf 0.

(** The [n] low-order bytes of a non-negative integer, big-endian. *)
Fixpoint be_bytes (n : nat) (z : Z) : bytes :=
  match n with
  | O => []
  | S n' => be_bytes n' (z / 256) ++ [byte_of_Z z]
  end.

(** [common.BigToHash(b)] is [BytesToHash(b.Bytes())]: [Bytes] is the
    big-endian magnitude of [b] (the sign is dropped), [BytesToHash] keeps
    its last 32 bytes and pads with zero bytes on the left. A nil [b] is
    dereferenced by [Bytes]: panic. *)
Definition BigToHashZ (z : Z) : Hash := be_bytes HashLength (Z.abs z).

Definition BigToHash (b : bigInt) : option Hash :=
  match b with
  | Some z => Some (BigToHashZ z)
  | None => None
  end.

(** [h.Big()] *)
Definition Big (h : Hash) : Z := SetBytes h.

(** [x.Uint64()]: the low 64 bits of the magnitude of [x]. (math/big
    documents the result only for an [x] that fits; this is what its
    implementation returns for every [x].) *)
Definition Uint64 (z : Z) : Z := Z.abs z mod 2 ^ 64.

(** [common.Hash{b0, b1, ...}]: a composite literal, the listed bytes first
    and zero bytes up to [HashLength]. *)
Definition HashLit (prefix : bytes) : Hash :=
  prefix ++ repeat x00 (HashLength - length prefix).

(** ** Data model *)

(** The errors the fee config manager returns. [ErrInvalidInputLength n] is
    [fmt.Errorf("invalid input length for fee config input: %d", n)],
    [ErrCannotChangeFee caller] is [ErrCannotChangeFee] wrapped with the
    caller, [ErrBlockNumberNil] is [fmt.Errorf("blockNumber cannot be nil")];
    [ErrInvalidFeeConfig] stands for whatever [FeeConfig.Verify] reports. *)
Inductive error : Type :=
| ErrOutOfGas
| ErrWriteProtection
| ErrInvalidInputLength (n : nat)
| ErrCannotChangeFee (caller : Address)
| ErrInvalidFeeConfig (reason : String.string)
| ErrBlockNumberNil.

(** [commontype.FeeConfig]: seven [*big.Int] fields and one [uint64]. *)
Record FeeConfig : Type := mkFeeConfig {
  GasLimit : bigInt;
  TargetBlockRate : Z;
  MinBaseFee : bigInt;
  TargetGas : bigInt;
  BaseFeeChangeDenominator : bigInt;
  MinBlockGasCost : bigInt;
  MaxBlockGasCost : bigInt;
  BlockGasCostStep : bigInt
}.

(** [commontype.FeeConfig{}], the zero value: nil pointers and a zero rate. *)
Definition emptyFeeConfig : FeeConfig :=
  mkFeeConfig None 0 None None None None None None.

Definition set_GasLimit (v : bigInt) (c : FeeConfig) : FeeConfig :=
  mkFeeConfig v (TargetBlockRate c) (MinBaseFee c) (TargetGas c)
    (BaseFeeChangeDenominator c) (MinBlockGasCost c) (MaxBlockGasCost c)
    (BlockGasCostStep c).
Definition set_TargetBlockRate (v : Z) (c : FeeConfig) : FeeConfig :=
  mkFeeConfig (GasLimit c) v (MinBaseFee c) (TargetGas c)
    (BaseFeeChangeDenominator c) (MinBlockGasCost c) (MaxBlockGasCost c)
    (BlockGasCostStep c).
Definition set_MinBaseFee (v : bigInt) (c : FeeConfig) : FeeConfig :=
  mkFeeConfig (GasLimit c) (TargetBlockRate c) v (TargetGas c)
    (BaseFeeChangeDenominator c) (MinBlockGasCost c) (MaxBlockGasCost c)
    (BlockGasCostStep c).
Definition set_TargetGas (v : bigInt) (c : FeeConfig) : FeeConfig :=
  mkFeeConfig (GasLimit c) (TargetBlockRate c) (MinBaseFee c) v
    (BaseFeeChangeDenominator c) (MinBlockGasCost c) (MaxBlockGasCost c)
    (BlockGasCostStep c).
Definition set_BaseFeeChangeDenominator (v : bigInt) (c : FeeConfig)
  : FeeConfig :=
  mkFeeConfig (GasLimit c) (TargetBlockRate c) (MinBaseFee c) (TargetGas c)
    v (MinBlockGasCost c) (MaxBlockGasCost c) (BlockGasCostStep c).
Definition set_MinBlockGasCost (v : bigInt) (c : FeeConfig) : FeeConfig :=
  mkFeeConfig (GasLimit c) (TargetBlockRate c) (MinBaseFee c) (TargetGas c)
    (BaseFeeChangeDenominator c) v (MaxBlockGasCost c) (BlockGasCostStep c).
Definition set_MaxBlockGasCost (v : bigInt) (c : FeeConfig) : FeeConfig :=
  mkFeeConfig (GasLimit c) (TargetBlockRate c) (MinBaseFee c) (TargetGas c)
    (BaseFeeChangeDenominator c) (MinBlockGasCost c) v (BlockGasCostStep c).
Definition set_BlockGasCostStep (v : bigInt) (c : FeeConfig) : FeeConfig :=
  mkFeeConfig (GasLimit c) (TargetBlockRate c) (MinBaseFee c) (TargetGas c)
    (BaseFeeChangeDenominator c) (MinBlockGasCost c) (MaxBlockGasCost c) v.

(** Modelled from the spec: the allow-list role type is declared outside the
    given sources. The spec has the enum None, Enabled, Admin, with
    [IsEnabled] true for Enabled and Admin. *)
Inductive AllowListRole : Type :=
| AllowListNoRole
| AllowListEnabled
| AllowListAdmin.

Definition IsEnabled (r : AllowListRole) : bool :=
  match r with
  | AllowListAdmin | AllowListEnabled => true
  | AllowListNoRole => false
  end.

(** [BlockContext]: [Number()] is a [*big.Int] and may be nil. *)
Record BlockContext : Type := mkBlockContext { Number : bigInt }.

(** ** Constants (the [const] block: [iota] counts the lines) *)

Definition minFeeConfigFieldKey : nat := 0 + 1.
Definition gasLimitKey : nat := 1.
Definition targetBlockRateKey : nat := 2.
Definition minBaseFeeKey : nat := 3.
Definition targetGasKey : nat := 4.
Definition baseFeeChangeDenominatorKey : nat := 5.
Definition minBlockGasCostKey : nat := 6.
Definition maxBlockGasCostKey : nat := 7.
Definition blockGasCostStepKey : nat := 8.
Definition numFeeConfigField : nat := 9 - 1.

Definition feeConfigInputLen : nat := HashLength * numFeeConfigField.

(** The values [i] of [for i := minFeeConfigFieldKey; i <= numFeeConfigField;
    i++]. *)
Definition fieldKeys : list nat :=
  seq minFeeConfigFieldKey (numFeeConfigField + 1 - minFeeConfigFieldKey).

(** [feeConfigLastChangedAtKey = common.Hash{'l', 'c', 'a'}] *)
Definition feeConfigLastChangedAtKey : Hash := HashLit [x6c; x63; x61].

(** [common.Hash{byte(i)}], the slot key of field [i]. *)
Definition fieldSlotKey (i : nat) : Hash := HashLit [byte_of_Z (Z.of_nat i)].

(** ** The codec *)

(** Modelled from the spec: [returnPackedHash] is declared outside the given
    sources. The input is a sequence of 32-byte words without padding or
    prefix; this is word [index] of it. *)
Definition returnPackedHash (packed : bytes) (index : nat) : bytes :=
  firstn HashLength (skipn (HashLength * index) packed).

(** Modelled from the spec: [packOrderedHashes] is declared outside the given
    sources. It fills the destination with one word per hash, in order,
    without padding or length prefix. *)
Definition packOrderedHashes (dst : bytes) (hashes : list Hash)
  : bytes * option error :=
  (concat hashes, None).

(** Modelled from the spec: [packOrderedHashesWithSelector] is declared
    outside the given sources. The selector comes first, the words follow. *)
Definition packOrderedHashesWithSelector (dst : bytes) (selector : bytes)
    (hashes : list Hash) : bytes * option error :=
  (selector ++ concat hashes, None).

(** Panics are the [None] of [option]. *)
Notation "x <- a ;; b" :=
  (match a with Some x => b | None => None end)
  (at level 61, a at next level, right associativity).

Definition packFeeConfigHelper (setFeeConfigSignature : bytes)
    (feeConfig : FeeConfig) (useSelector : bool)
  : option (bytes * option error) :=
  h1 <- BigToHash (GasLimit feeConfig) ;;
  h2 <- BigToHash (Some (TargetBlockRate feeConfig)) ;;
  h3 <- BigToHash (MinBaseFee feeConfig) ;;
  h4 <- BigToHash (TargetGas feeConfig) ;;
  h5 <- BigToHash (BaseFeeChangeDenominator feeConfig) ;;
  h6 <- BigToHash (MinBlockGasCost feeConfig) ;;
  h7 <- BigToHash (MaxBlockGasCost feeConfig) ;;
  h8 <- BigToHash (BlockGasCostStep feeConfig) ;;
  let hashes := [h1; h2; h3; h4; h5; h6; h7; h8] in
  if useSelector then
    let res := repeat x00 (length setFeeConfigSignature + feeConfigInputLen) in
    Some (packOrderedHashesWithSelector res setFeeConfigSignature hashes)
  else
    let res := repeat x00 (length hashes * HashLength) in
    Some (packOrderedHashes res hashes).

(** [PackFeeConfig]: without the selector, so the signature is not used. *)
Definition PackFeeConfig (feeConfig : FeeConfig)
  : option (bytes * option error) :=
  packFeeConfigHelper [] feeConfig false.

Definition PackSetFeeConfig (setFeeConfigSignature : bytes)
    (feeConfig : FeeConfig) : option (bytes * option error) :=
  packFeeConfigHelper setFeeConfigSignature feeConfig true.

(** One turn of the loop of [UnpackFeeConfigInput]; the [default] case
    panics. *)
Definition unpackField (input : bytes) (feeConfig : FeeConfig) (i : nat)
  : option FeeConfig :=
  let listIndex := (i - 1)%nat in
  let packedElement := returnPackedHash input listIndex in
  if (i =? gasLimitKey)%nat then
    Some (set_GasLimit (Some (SetBytes packedElement)) feeConfig)
  else if (i =? targetBlockRateKey)%nat then
    Some (set_TargetBlockRate (Uint64 (SetBytes packedElement)) feeConfig)
  else if (i =? minBaseFeeKey)%nat then
    Some (set_MinBaseFee (Some (SetBytes packedElement)) feeConfig)
  else if (i =? targetGasKey)%nat then
    Some (set_TargetGas (Some (SetBytes packedElement)) feeConfig)
  else if (i =? baseFeeChangeDenominatorKey)%nat then
    Some (set_BaseFeeChangeDenominator (Some (SetBytes packedElement))
            feeConfig)
  else if (i =? minBlockGasCostKey)%nat then
    Some (set_MinBlockGasCost (Some (SetBytes packedElement)) feeConfig)
  else if (i =? maxBlockGasCostKey)%nat then
    Some (set_MaxBlockGasCost (Some (SetBytes packedElement)) feeConfig)
  else if (i =? blockGasCostStepKey)%nat then
    Some (set_BlockGasCostStep (Some (SetBytes packedElement)) feeConfig)
  else None.

(** A loop over the field keys whose body may panic. *)
Definition forFieldKeys {A : Type} (body : A -> nat -> option A) (init : A)
  : option A :=
  fold_left (fun acc i => a <- acc ;; body a i) fieldKeys (Some init).

Definition UnpackFeeConfigInput (input : bytes)
  : option (FeeConfig * option error) :=
  if negb (length input =? feeConfigInputLen)%nat then
    Some (emptyFeeConfig, Some (ErrInvalidInputLength (length input)))
  else
    feeConfig <- forFieldKeys (unpackField input) emptyFeeConfig ;;
    Some (feeConfig, None).

(** ** The host state *)

(** The [StateDB] interface, as far as the fee config manager uses it: a
    store of 32-byte words under (contract address, slot key). The two laws
    say that it is a store: a word written is the word read, and a write
    leaves every other slot alone. *)
Class StateDB (S : Type) : Type := {
  GetState : S -> Address -> Hash -> Hash;
  SetState : S -> Address -> Hash -> Hash -> S;
  GetState_SetState_same : forall s a k v,
    GetState (SetState s a k v) a k = v;
  GetState_SetState_other : forall s a k v a' k',
    (a', k') <> (a, k) ->
    GetState (SetState s a k v) a' k' = GetState s a' k'
}.

(** [PrecompileAccessibleState]: the state and the block context of a call. *)
Record PrecompileAccessibleState (S : Type) : Type :=
  mkAccessibleState {
    GetStateDB : S;
    GetBlockContext : BlockContext
  }.
Arguments mkAccessibleState {S} _ _.
Arguments GetStateDB {S} _.
Arguments GetBlockContext {S} _.

(** What a handler returns: [(ret, remainingGas, err)]; a nil [ret] is
    [None]. *)
Definition CallResult : Type := option bytes * N * option error.

(** Modelled from the spec: [deductGas] is declared outside the given
    sources. The supplied gas is compared with the fixed cost; too little
    gas fails with the out-of-gas error and nothing remaining. *)
Definition deductGas (suppliedGas requiredGas : N) : N * option error :=
  if (suppliedGas <? requiredGas)%N then (0%N, Some ErrOutOfGas)
  else ((suppliedGas - requiredGas)%N, None).

Section FeeConfigManager.

Context {S : Type} `{StateDB S}.

(** [FeeConfigManagerAddress], the address of the precompile. *)
Variable FeeConfigManagerAddress : Address.

(** The gas cost of writing and of reading one slot. *)
Variables writeGasCostPerSlot readGasCostPerSlot : N.

(** [commontype.FeeConfig.Verify]: the chain's policy for fee configs. *)
Variable Verify : FeeConfig -> option error.

(** [getAllowListStatus]: the role of an address in the allow list of a
    precompile, read from the state. *)
Variable getAllowListStatus : S -> Address -> Address -> AllowListRole.

Definition SetFeeConfigGasCost : N :=
  (writeGasCostPerSlot * N.of_nat (numFeeConfigField + 1))%N.
Definition GetFeeConfigGasCost : N :=
  (readGasCostPerSlot * N.of_nat numFeeConfigField)%N.
Definition GetLastChangedAtGasCost : N := readGasCostPerSlot.

(** One turn of the loop of [GetStoredFeeConfig]. *)
Definition loadField (stateDB : S) (feeConfig : FeeConfig) (i : nat)
  : option FeeConfig :=
  let val := GetState stateDB FeeConfigManagerAddress (fieldSlotKey i) in
  if (i =? gasLimitKey)%nat then
    Some (set_GasLimit (Some (Big val)) feeConfig)
  else if (i =? targetBlockRateKey)%nat then
    Some (set_TargetBlockRate (Uint64 (Big val)) feeConfig)
  else if (i =? minBaseFeeKey)%nat then
    Some (set_MinBaseFee (Some (Big val)) feeConfig)
  else if (i =? targetGasKey)%nat then
    Some (set_TargetGas (Some (Big val)) feeConfig)
  else if (i =? baseFeeChangeDenominatorKey)%nat then
    Some (set_BaseFeeChangeDenominator (Some (Big val)) feeConfig)
  else if (i =? minBlockGasCostKey)%nat then
    Some (set_MinBlockGasCost (Some (Big val)) feeConfig)
  else if (i =? maxBlockGasCostKey)%nat then
    Some (set_MaxBlockGasCost (Some (Big val)) feeConfig)
  else if (i =? blockGasCostStepKey)%nat then
    Some (set_BlockGasCostStep (Some (Big val)) feeConfig)
  else None.

Definition GetStoredFeeConfig (stateDB : S) : option FeeConfig :=
  forFieldKeys (loadField stateDB) emptyFeeConfig.

Definition GetFeeConfigLastChangedAt (stateDB : S) : bigInt :=
  let val :=
    GetState stateDB FeeConfigManagerAddress feeConfigLastChangedAtKey in
  Some (Big val).

(** One turn of the loop of [StoreFeeConfig]: the word of field [i], then
    the write. *)
Definition storeField (feeConfig : FeeConfig) (stateDB : S) (i : nat)
  : option S :=
  input <-
    (if (i =? gasLimitKey)%nat then
       BigToHash (GasLimit feeConfig)
     else if (i =? targetBlockRateKey)%nat then
       BigToHash (Some (TargetBlockRate feeConfig))
     else if (i =? minBaseFeeKey)%nat then
       BigToHash (MinBaseFee feeConfig)
     else if (i =? targetGasKey)%nat then
       BigToHash (TargetGas feeConfig)
     else if (i =? baseFeeChangeDenominatorKey)%nat then
       BigToHash (BaseFeeChangeDenominator feeConfig)
     else if (i =? minBlockGasCostKey)%nat then
       BigToHash (MinBlockGasCost feeConfig)
     else if (i =? maxBlockGasCostKey)%nat then
       BigToHash (MaxBlockGasCost feeConfig)
     else if (i =? blockGasCostStepKey)%nat then
       BigToHash (BlockGasCostStep feeConfig)
     else None) ;;
  Some (SetState stateDB FeeConfigManagerAddress (fieldSlotKey i) input).

(** [StoreFeeConfig]: the state after the call and the error returned. *)
Definition StoreFeeConfig (stateDB : S) (feeConfig : FeeConfig)
    (blockContext : BlockContext) : option (S * option error) :=
  match Verify feeConfig with
  | Some err => Some (stateDB, Some err)
  | None =>
      stateDB' <- forFieldKeys (storeField feeConfig) stateDB ;;
      match Number blockContext with
      | None => Some (stateDB', Some ErrBlockNumberNil)
      | Some blockNumber =>
          Some (SetState stateDB' FeeConfigManagerAddress
                  feeConfigLastChangedAtKey (BigToHashZ blockNumber),
                None)
      end
  end.

(** The handlers: the result of the call and the state after it. *)
Definition setFeeConfig (accessibleState : PrecompileAccessibleState S)
    (caller addr : Address) (input : bytes) (suppliedGas : N)
    (readOnly : bool) : option (CallResult * S) :=
  let stateDB := GetStateDB accessibleState in
  let (remainingGas, err) := deductGas suppliedGas SetFeeConfigGasCost in
  match err with
  | Some err => Some ((None, 0%N, Some err), stateDB)
  | None =>
      if readOnly then
        Some ((None, remainingGas, Some ErrWriteProtection), stateDB)
      else
        unpacked <- UnpackFeeConfigInput input ;;
        let (feeConfig, err) := unpacked in
        match err with
        | Some err => Some ((None, remainingGas, Some err), stateDB)
        | None =>
            let callerStatus :=
              getAllowListStatus stateDB FeeConfigManagerAddress caller in
            if negb (IsEnabled callerStatus) then
              Some ((None, remainingGas, Some (ErrCannotChangeFee caller)),
                    stateDB)
            else
              stored <- StoreFeeConfig stateDB feeConfig
                          (GetBlockContext accessibleState) ;;
              let (stateDB', err) := stored in
              match err with
              | Some err => Some ((None, remainingGas, Some err), stateDB')
              | None => Some ((Some [], remainingGas, None), stateDB')
              end
        end
  end.

Definition getFeeConfig (accessibleState : PrecompileAccessibleState S)
    (caller addr : Address) (input : bytes) (suppliedGas : N)
    (readOnly : bool) : option (CallResult * S) :=
  let stateDB := GetStateDB accessibleState in
  let (remainingGas, err) := deductGas suppliedGas GetFeeConfigGasCost in
  match err with
  | Some err => Some ((None, 0%N, Some err), stateDB)
  | None =>
      feeConfig <- GetStoredFeeConfig stateDB ;;
      packed <- PackFeeConfig feeConfig ;;
      let (output, err) := packed in
      match err with
      | Some err => Some ((None, remainingGas, Some err), stateDB)
      | None => Some ((Some output, remainingGas, err), stateDB)
      end
  end.

Definition getFeeConfigLastChangedAt
    (accessibleState : PrecompileAccessibleState S)
    (caller addr : Address) (input : bytes) (suppliedGas : N)
    (readOnly : bool) : option (CallResult * S) :=
  let stateDB := GetStateDB accessibleState in
  let (remainingGas, err) := deductGas suppliedGas GetLastChangedAtGasCost in
  match err with
  | Some err => Some ((None, 0%N, Some err), stateDB)
  | None =>
      let lastChangedAt := GetFeeConfigLastChangedAt stateDB in
      h <- BigToHash lastChangedAt ;;
      Some ((Some h, remainingGas, err), stateDB)
  end.

End FeeConfigManager.

(** ** A concrete host for the examples

    The theorems hold for every [StateDB], every policy [Verify], every
    role lookup and all gas costs. The definitions below are one such host,
    on which the examples are run. *)

Fixpoint bytes_eqb (a b : bytes) : bool :=
  match a, b with
  | [], [] => true
  | x :: a', y :: b' => Byte.eqb x y && bytes_eqb a' b'
  | _, _ => false
  end.

(** A state as the list of its writes, the latest first; a slot never
    written reads as the zero hash [common.Hash{}]. *)
Definition AssocState : Type := list (Address * Hash * Hash).

Fixpoint assocGet (s : AssocState) (a : Address) (k : Hash) : Hash :=
  match s with
  | [] => HashLit []
  | (a', k', v) :: s' =>
      if bytes_eqb a a' && bytes_eqb k k' then v else assocGet s' a k
  end.

Definition assocSet (s : AssocState) (a : Address) (k v : Hash)
  : AssocState :=
  (a, k, v) :: s.

#[export] Instance assocStateDB : StateDB AssocState.
Proof.
  assert (Heqb : forall a b : bytes, bytes_eqb a b = true <-> a = b).
  { induction a as [|x a IH]; destruct b as [|y b]; simpl;
      try (split; [discriminate | discriminate]); try tauto.
    rewrite andb_true_iff, IH. split.
    - intros [Hx ->]. apply Byte.byte_dec_bl in Hx. subst. reflexivity.
    - intros E; injection E as -> ->. split; [apply Byte.byte_dec_lb|]; auto. }
  refine {| GetState := assocGet; SetState := assocSet |}.
  - intros s a k v. unfold assocSet; simpl.
    rewrite (proj2 (Heqb a a) eq_refl), (proj2 (Heqb k k) eq_refl).
    reflexivity.
  - intros s a k v a' k' Hne. unfold assocSet; simpl.
    destruct (bytes_eqb a' a) eqn:Ea; [|reflexivity].
    destruct (bytes_eqb k' k) eqn:Ek; [|reflexivity].
    apply Heqb in Ea, Ek. subst. contradiction Hne. reflexivity.
Defined.

(** [address.Hash()]: the address bytes, padded with zero bytes on the
    left. *)
Definition addressSlotKey (a : Address) : Hash :=
  repeat x00 (HashLength - length a) ++ a.

(** Modelled from the spec: the role store is declared outside the given
    sources. A role is one word in the slot derived from the holder's
    address under the precompile's address; an absent or unknown word is no
    role. The words one and two for Enabled and Admin are the example's
    choice. *)
Definition storedAllowListStatus {S : Type} `{StateDB S} (stateDB : S)
    (precompileAddr address : Address) : AllowListRole :=
  let w := Big (GetState stateDB precompileAddr (addressSlotKey address)) in
  if w =? 1 then AllowListEnabled
  else if w =? 2 then AllowListAdmin
  else AllowListNoRole.

Definition leBig (a b : bigInt) : bool :=
  match a, b with
  | Some x, Some y => x <=? y
  | _, _ => false
  end.

(** Modelled from the spec: [commontype.FeeConfig.Verify] is declared outside
    the given sources, and the spec leaves its bounds to the chain. This
    policy wants every field present, a non-zero denominator and rate, and
    the minimum block gas cost at most the maximum. *)
Definition exampleVerify (c : FeeConfig) : option error :=
  if negb (leBig (Some 0) (GasLimit c) && leBig (Some 0) (MinBaseFee c)
           && leBig (Some 0) (TargetGas c) && leBig (Some 0) (MinBlockGasCost c)
           && leBig (Some 0) (BlockGasCostStep c))
  then Some (ErrInvalidFeeConfig "missing or negative field"%string)
  else if negb (leBig (Some 1) (BaseFeeChangeDenominator c))
  then Some (ErrInvalidFeeConfig "zero denominator"%string)
  else if TargetBlockRate c <=? 0
  then Some (ErrInvalidFeeConfig "zero target block rate"%string)
  else if negb (leBig (MinBlockGasCost c) (MaxBlockGasCost c))
  then Some (ErrInvalidFeeConfig "min block gas cost above max"%string)
  else None.

(** The precompile address of the examples. *)
Definition exampleManagerAddress : Address :=
  [x02] ++ repeat x00 18 ++ [x03].

(** The per-slot gas costs of the examples. *)
Definition exampleWriteGasCostPerSlot : N := 20000.
Definition exampleReadGasCostPerSlot : N := 5000.

(** Two callers: [callerB] is given the Enabled role in [exampleState],
    [callerC] has none. *)
Definition callerB : Address := repeat x00 19 ++ [x0b].
Definition callerC : Address := repeat x00 19 ++ [x0c].

Definition exampleState : AssocState :=
  assocSet [] exampleManagerAddress (addressSlotKey callerB) (BigToHashZ 1).

(** The record of the spec's scenario. *)
Definition exampleFeeConfig : FeeConfig :=
  mkFeeConfig (Some 8000000) 2 (Some 25000000000) (Some 15000000) (Some 36)
    (Some 0) (Some 1000000) (Some 200000).

(** Its packing, computed once. *)
Definition exampleInput : bytes :=
  Eval vm_compute in
    match PackFeeConfig exampleFeeConfig with
    | Some (b, _) => b
    | None => []
    end.

(** The handlers on the example host. *)
Definition exampleSetFeeConfig :=
  setFeeConfig (S := AssocState) exampleManagerAddress
    exampleWriteGasCostPerSlot exampleVerify storedAllowListStatus.
Definition exampleGetFeeConfig :=
  getFeeConfig (S := AssocState) exampleManagerAddress
    exampleReadGasCostPerSlot.
Definition exampleGetFeeConfigLastChangedAt :=
  getFeeConfigLastChangedAt (S := AssocState) exampleManagerAddress
    exampleReadGasCostPerSlot.

(** ** Stating the properties *)

(** A [*big.Int] that is not nil and fits a 256-bit word. *)
Definition inWord (b : bigInt) : Prop :=
  match b with
  | Some z => 0 <= z < 2 ^ 256
  | None => False
  end.

(** A record the codec can carry: every field fits its word, the target
    block rate is a [uint64]. *)
Definition representable (r : FeeConfig) : Prop :=
  inWord (GasLimit r) /\
  0 <= TargetBlockRate r < 2 ^ 64 /\
  inWord (MinBaseFee r) /\
  inWord (TargetGas r) /\
  inWord (BaseFeeChangeDenominator r) /\
  inWord (MinBlockGasCost r) /\
  inWord (MaxBlockGasCost r) /\
  inWord (BlockGasCostStep r).

(** The example input with [2^64 + 2] in its second word. *)
Definition overflowInput : bytes :=
  Eval vm_compute in
    returnPackedHash exampleInput 0 ++ BigToHashZ (2 ^ 64 + 2) ++
    skipn (2 * HashLength) exampleInput.

(** The state after the eight field writes of [StoreFeeConfig], in the
    order of the loop. *)
Definition storedFields {S : Type} `{StateDB S} (a : Address) (s : S)
    (h1 h2 h3 h4 h5 h6 h7 h8 : Hash) : S :=
  SetState
    (SetState
       (SetState
          (SetState
             (SetState
                (SetState
                   (SetState
                      (SetState s a (fieldSlotKey gasLimitKey) h1)
                      a (fieldSlotKey targetBlockRateKey) h2)
                   a (fieldSlotKey minBaseFeeKey) h3)
                a (fieldSlotKey targetGasKey) h4)
             a (fieldSlotKey baseFeeChangeDenominatorKey) h5)
          a (fieldSlotKey minBlockGasCostKey) h6)
       a (fieldSlotKey maxBlockGasCostKey) h7)
    a (fieldSlotKey blockGasCostStepKey) h8.

(** The nine slot keys the fee config manager uses. *)
Definition feeConfigSlotKeys : list Hash :=
  map fieldSlotKey fieldKeys ++ [feeConfigLastChangedAtKey].

(** The record the decoder builds from the eight words of an input. *)
Definition wordsFeeConfig (input : bytes) : FeeConfig :=
  mkFeeConfig
    (Some (SetBytes (returnPackedHash input 0)))
    (Uint64 (SetBytes (returnPackedHash input 1)))
    (Some (SetBytes (returnPackedHash input 2)))
    (Some (SetBytes (returnPackedHash input 3)))
    (Some (SetBytes (returnPackedHash input 4)))
    (Some (SetBytes (returnPackedHash input 5)))
    (Some (SetBytes (returnPackedHash input 6)))
    (Some (SetBytes (returnPackedHash input 7))).

(** The state after the eight field writes for a decoded input. *)
Definition storedWords {S : Type} `{StateDB S} (a : Address) (s : S)
    (input : bytes) : S :=
  storedFields a s
    (BigToHashZ (SetBytes (returnPackedHash input 0)))
    (BigToHashZ (Uint64 (SetBytes (returnPackedHash input 1))))
    (BigToHashZ (SetBytes (returnPackedHash input 2)))
    (BigToHashZ (SetBytes (returnPackedHash input 3)))
    (BigToHashZ (SetBytes (returnPackedHash input 4)))
    (BigToHashZ (SetBytes (returnPackedHash input 5)))
    (BigToHashZ (SetBytes (returnPackedHash input 6)))
    (BigToHashZ (SetBytes (returnPackedHash input 7))).

(** An example call context: a state and a block number. *)
Definition exampleContext (s : AssocState) (blockNumber : bigInt)
  : PrecompileAccessibleState AssocState :=
  mkAccessibleState s (mkBlockContext blockNumber).

(** Gas accounting of one call: the handler returns, the remaining gas is
    at most the supplied gas, a success leaves exactly the supplied gas
    minus the cost, and too little gas is the out-of-gas error with nothing
    remaining. *)
Definition gasAccounted {S : Type} (cost suppliedGas : N)
    (outcome : option (CallResult * S)) : Prop :=
  exists ret remainingGas err s',
    outcome = Some ((ret, remainingGas, err), s') /\
    (remainingGas <= suppliedGas)%N /\
    (err = None ->
     (cost <= suppliedGas)%N /\ remainingGas = (suppliedGas - cost)%N) /\
    ((suppliedGas < cost)%N ->
     err = Some ErrOutOfGas /\ remainingGas = 0%N).

(** ** The upgrade configuration *)

(** [AllowListConfig]: the initial admins and the initial enabled
    addresses. *)
Record AllowListConfig : Type := mkAllowListConfig {
  AllowListAdmins : list Address;
  EnabledAddresses : list Address
}.

(** [UpgradeableConfig] *)
Record UpgradeableConfig : Type := mkUpgradeableConfig {
  BlockTimestamp : bigInt;
  Disable : bool
}.

(** [FeeConfigManagerConfig]: the two embedded configs and the optional
    initial fee config (a pointer: [None] is nil). *)
Record FeeConfigManagerConfig : Type := mkFeeConfigManagerConfig {
  allowListConfig : AllowListConfig;
  upgradeableConfig : UpgradeableConfig;
  InitialFeeConfig : option FeeConfig
}.

(** [ChainConfig], as far as [Configure] uses it. *)
Record ChainConfig : Type := mkChainConfig { GetFeeConfig : FeeConfig }.

Definition NewFeeManagerConfig (blockTimestamp : bigInt)
    (admins enableds : list Address) (initialConfig : option FeeConfig)
  : FeeConfigManagerConfig :=
  mkFeeConfigManagerConfig
    (mkAllowListConfig admins enableds)
    (mkUpgradeableConfig blockTimestamp false)
    initialConfig.

(** The fields not listed in the literal take their zero values. *)
Definition NewDisableFeeManagerConfig (blockTimestamp : bigInt)
  : FeeConfigManagerConfig :=
  mkFeeConfigManagerConfig
    (mkAllowListConfig [] [])
    (mkUpgradeableConfig blockTimestamp true)
    None.

(** An error as [Configure] returns it: as it came, or wrapped by
    [fmt.Errorf("<prefix>: %w", err)]. *)
Inductive configureError : Type :=
| Unwrapped (err : error)
| Wrapped (prefix : String.string) (err : error).

Section Lifecycle.

Context {S : Type} `{StateDB S}.
Variable FeeConfigManagerAddress : Address.

(** [commontype.FeeConfig.Verify] *)
Variable Verify : FeeConfig -> option error.

(** [AllowListConfig.Verify] and [AllowListConfig.Configure], declared
    outside the given sources: the latter gets the state and the address of
    the precompile, and returns an error. *)
Variable AllowListConfig_Verify : AllowListConfig -> option error.
Variable AllowListConfig_Configure :
  AllowListConfig -> S -> Address -> S * option error.

(** [(c *FeeConfigManagerConfig) Verify] *)
Definition FeeConfigManagerConfig_Verify (c : FeeConfigManagerConfig)
  : option error :=
  match AllowListConfig_Verify (allowListConfig c) with
  | Some err => Some err
  | None =>
      match InitialFeeConfig c with
      | None => None
      | Some initial => Verify initial
      end
  end.

(** [(c *FeeConfigManagerConfig) Configure]: the state after the call and
    the error returned. *)
Definition Configure (c : FeeConfigManagerConfig) (chainConfig : ChainConfig)
    (state : S) (blockContext : BlockContext)
  : option (S * option configureError) :=
  match InitialFeeConfig c with
  | Some initial =>
      stored <- StoreFeeConfig FeeConfigManagerAddress Verify state initial
                  blockContext ;;
      let (state', err) := stored in
      match err with
      | Some err =>
          Some (state', Some (Wrapped "invalid feeConfig provided"%string err))
      | None =>
          let (state'', err) :=
            AllowListConfig_Configure (allowListConfig c) state'
              FeeConfigManagerAddress in
          Some (state'', option_map Unwrapped err)
      end
  | None =>
      stored <- StoreFeeConfig FeeConfigManagerAddress Verify state
                  (GetFeeConfig chainConfig) blockContext ;;
      let (state', err) := stored in
      match err with
      | Some err =>
          Some (state',
                Some (Wrapped "invalid feeConfig provided in chainConfig"%string
                        err))
      | None =>
          let (state'', err) :=
            AllowListConfig_Configure (allowListConfig c) state'
              FeeConfigManagerAddress in
          Some (state'', option_map Unwrapped err)
      end
  end.

End Lifecycle.

(** Equality of byte strings is decidable. *)
Definition bytes_eq_dec (a b : bytes) : {a = b} + {a <> b} :=
  list_eq_dec Byte.byte_eq_dec a b.

(** A record without a nil field. *)
Definition noNilField (r : FeeConfig) : Prop :=
  GasLimit r <> None /\ MinBaseFee r <> None /\ TargetGas r <> None /\
  BaseFeeChangeDenominator r <> None /\ MinBlockGasCost r <> None /\
  MaxBlockGasCost r <> None /\ BlockGasCostStep r <> None.

(** Modelled from the spec: [AllowListConfig.Configure] is declared outside
    the given sources. Each enabled address and each admin gets its role
    word in its slot. The examples run on it. *)
Definition exampleAllowListConfigure (c : AllowListConfig) (s : AssocState)
    (precompileAddr : Address) : AssocState * option error :=
  let s1 :=
    fold_left
      (fun st a => assocSet st precompileAddr (addressSlotKey a)
                     (BigToHashZ 1))
      (EnabledAddresses c) s in
  let s2 :=
    fold_left
      (fun st a => assocSet st precompileAddr (addressSlotKey a)
                     (BigToHashZ 2))
      (AllowListAdmins c) s1 in
  (s2, None).

(** The example upgrade: an admin, an enabled address, the example record as
    initial fee config. *)
Definition exampleUpgrade : FeeConfigManagerConfig :=
  NewFeeManagerConfig (Some 0) [repeat x00 19 ++ [x0a]] [callerB]
    (Some exampleFeeConfig).

(** A record the example policy refuses: the denominator is zero. *)
Definition rejectedFeeConfig : FeeConfig :=
  mkFeeConfig (Some 8000000) 2 (Some 25000000000) (Some 15000000) (Some 0)
    (Some 0) (Some 1000000) (Some 200000).

Definition rejectedInput : bytes :=
  Eval vm_compute in
    match PackFeeConfig rejectedFeeConfig with
    | Some (b, _) => b
    | None => []
    end.

(** [Configure] on the example host. *)
Definition exampleConfigure :=
  Configure (S := AssocState) exampleManagerAddress exampleVerify
    exampleAllowListConfigure.

(** * Properties *)

(** ** Facts about the byte conversions *)

Lemma Z_of_byte_range (b : byte) : 0 <= Z_of_byte b < 256.
Proof.
  unfold Z_of_byte. pose proof (Byte.to_N_bounded b) as Hb. lia.
Qed.

Lemma byte_of_Z_of_byte (b : byte) : byte_of_Z (Z_of_byte b) = b.
Proof.
  unfold byte_of_Z. pose proof (Z_of_byte_range b) as Hr.
  rewrite Z.mod_small by lia. unfold Z_of_byte.
  rewrite N2Z.id, Byte.of_to_N. reflexivity.
Qed.

Lemma Z_of_byte_of_Z (z : Z) : Z_of_byte (byte_of_Z z) = z mod 256.
Proof.
  unfold byte_of_Z.
  assert (Hr : 0 <= z mod 256 < 256) by (apply Z.mod_pos_bound; lia).
  destruct (Byte.of_N (Z.to_N (z mod 256))) as [b|] eqn:E.
  - apply Byte.to_of_N in E. unfold Z_of_byte. rewrite E. lia.
  - apply Byte.of_N_None_iff in E. lia.
Qed.

Lemma byte_of_Z_mod (q r : Z) : byte_of_Z (q * 256 + r) = byte_of_Z r.
Proof.
  unfold byte_of_Z. rewrite Z.add_comm, Z.mod_add by lia. reflexivity.
Qed.

Lemma SetBytes_snoc (l : bytes) (b : byte) :
  SetBytes (l ++ [b]) = SetBytes l * 256 + Z_of_byte b.
Proof. unfold SetBytes. rewrite fold_left_app. reflexivity. Qed.

Lemma SetBytes_nonneg (l : bytes) : 0 <= SetBytes l.
Proof.
  induction l as [|b l IH] using rev_ind.
  - unfold SetBytes; simpl; lia.
  - rewrite SetBytes_snoc. pose proof (Z_of_byte_range b). lia.
Qed.

Lemma SetBytes_bound (l : bytes) : SetBytes l < 256 ^ Z.of_nat (length l).
Proof.
  induction l as [|b l IH] using rev_ind.
  - unfold SetBytes; simpl; lia.
  - rewrite SetBytes_snoc, length_app, Nat.add_comm. cbn [length Nat.add].
    rewrite Nat2Z.inj_succ, Z.pow_succ_r by lia.
    pose proof (Z_of_byte_range b). lia.
Qed.

Lemma be_bytes_length (n : nat) (z : Z) : length (be_bytes n z) = n.
Proof.
  revert z; induction n as [|n IH]; intros z; simpl.
  - reflexivity.
  - rewrite length_app, IH. simpl. lia.
Qed.

(** Writing out what was read gives the bytes back. *)
Lemma be_bytes_SetBytes (l : bytes) : be_bytes (length l) (SetBytes l) = l.
Proof.
  induction l as [|b l IH] using rev_ind.
  - reflexivity.
  - rewrite length_app, Nat.add_comm. cbn [length Nat.add be_bytes].
    rewrite SetBytes_snoc, byte_of_Z_mod, byte_of_Z_of_byte.
    pose proof (Z_of_byte_range b) as Hr.
    replace ((SetBytes l * 256 + Z_of_byte b) / 256) with (SetBytes l).
    + rewrite IH. reflexivity.
    + apply Z.div_unique with (r := Z_of_byte b); lia.
Qed.

(** Reading what was written gives the integer back, truncated to the
    width. *)
Lemma SetBytes_be_bytes (n : nat) (z : Z) :
  0 <= z -> SetBytes (be_bytes n z) = z mod 256 ^ Z.of_nat n.
Proof.
  revert z; induction n as [|n IH]; intros z Hz.
  - simpl. rewrite Z.mod_1_r. reflexivity.
  - cbn [be_bytes]. rewrite SetBytes_snoc, Z_of_byte_of_Z.
    rewrite IH by (apply Z.div_pos; lia).
    rewrite Nat2Z.inj_succ, Z.pow_succ_r by lia.
    rewrite Z.rem_mul_r by lia.
    lia.
Qed.

Lemma Big_unfold (h : Hash) : Big h = SetBytes h.
Proof. reflexivity. Qed.

Lemma BigToHashZ_length (z : Z) : length (BigToHashZ z) = HashLength.
Proof. apply be_bytes_length. Qed.

Lemma Big_BigToHashZ (z : Z) : Big (BigToHashZ z) = Z.abs z mod 2 ^ 256.
Proof.
  rewrite Big_unfold. unfold BigToHashZ.
  rewrite SetBytes_be_bytes by lia. reflexivity.
Qed.

Lemma Big_BigToHashZ_small (z : Z) :
  0 <= z < 2 ^ 256 -> Big (BigToHashZ z) = z.
Proof.
  intros Hz. rewrite Big_BigToHashZ, Z.abs_eq, Z.mod_small; lia.
Qed.

Lemma BigToHashZ_SetBytes (w : bytes) :
  length w = HashLength -> BigToHashZ (SetBytes w) = w.
Proof.
  intros Hw. unfold BigToHashZ.
  rewrite Z.abs_eq by apply SetBytes_nonneg.
  rewrite <- Hw. apply be_bytes_SetBytes.
Qed.

Lemma Uint64_small (z : Z) : 0 <= z < 2 ^ 64 -> Uint64 z = z.
Proof.
  intros Hz. unfold Uint64. rewrite Z.abs_eq, Z.mod_small; lia.
Qed.

Lemma Uint64_range (z : Z) : 0 <= Uint64 z < 2 ^ 64.
Proof. unfold Uint64. apply Z.mod_pos_bound. lia. Qed.

(** ** The words of an input *)

Lemma returnPackedHash_succ (input : bytes) (k : nat) :
  returnPackedHash input (S k) = returnPackedHash (skipn HashLength input) k.
Proof.
  unfold returnPackedHash. f_equal.
  rewrite skipn_skipn. f_equal. lia.
Qed.

Lemma returnPackedHash_length (input : bytes) (k : nat) :
  (HashLength * S k <= length input)%nat ->
  length (returnPackedHash input k) = HashLength.
Proof.
  intros Hl. unfold returnPackedHash.
  rewrite length_firstn, length_skipn. lia.
Qed.

(** An input of [n] words is the concatenation of its words. *)
Lemma concat_returnPackedHash (n : nat) (input : bytes) :
  length input = (HashLength * n)%nat ->
  concat (map (returnPackedHash input) (seq 0 n)) = input.
Proof.
  revert input; induction n as [|n IH]; intros input Hl.
  - destruct input; [reflexivity | simpl in Hl; lia].
  - cbn [seq map concat]. rewrite <- seq_shift, map_map.
    rewrite (map_ext _ _ (returnPackedHash_succ input)).
    rewrite IH by (rewrite length_skipn; lia).
    unfold returnPackedHash. cbn [Nat.mul skipn].
    rewrite Nat.mul_0_r. cbn [skipn]. apply firstn_skipn.
Qed.

(** ** The codec *)

(** On an input of the right length the decoder fills the eight fields from
    the eight words, in order, and does not panic. *)
Lemma UnpackFeeConfigInput_words (input : bytes) :
  length input = feeConfigInputLen ->
  UnpackFeeConfigInput input =
    Some (mkFeeConfig
            (Some (SetBytes (returnPackedHash input 0)))
            (Uint64 (SetBytes (returnPackedHash input 1)))
            (Some (SetBytes (returnPackedHash input 2)))
            (Some (SetBytes (returnPackedHash input 3)))
            (Some (SetBytes (returnPackedHash input 4)))
            (Some (SetBytes (returnPackedHash input 5)))
            (Some (SetBytes (returnPackedHash input 6)))
            (Some (SetBytes (returnPackedHash input 7))),
          None).
Proof.
  intros Hl. unfold UnpackFeeConfigInput.
  rewrite Hl, Nat.eqb_refl. reflexivity.
Qed.

Lemma UnpackFeeConfigInput_short (input : bytes) :
  length input <> feeConfigInputLen ->
  UnpackFeeConfigInput input =
    Some (emptyFeeConfig, Some (ErrInvalidInputLength (length input))).
Proof.
  intros Hl. unfold UnpackFeeConfigInput.
  apply Nat.eqb_neq in Hl. rewrite Hl. reflexivity.
Qed.

(** The decoder never panics. *)
Lemma UnpackFeeConfigInput_total (input : bytes) :
  exists feeConfig err, UnpackFeeConfigInput input = Some (feeConfig, err).
Proof.
  destruct (Nat.eq_dec (length input) feeConfigInputLen) as [Hl|Hl].
  - rewrite (UnpackFeeConfigInput_words _ Hl). eauto.
  - rewrite (UnpackFeeConfigInput_short _ Hl). eauto.
Qed.

(** Packing a record without nil fields: the eight words, in order. *)
Lemma PackFeeConfig_words (g r b t d mn mx st : Z) :
  PackFeeConfig
    (mkFeeConfig (Some g) r (Some b) (Some t) (Some d) (Some mn) (Some mx)
       (Some st)) =
    Some (BigToHashZ g ++ BigToHashZ r ++ BigToHashZ b ++ BigToHashZ t ++
          BigToHashZ d ++ BigToHashZ mn ++ BigToHashZ mx ++ BigToHashZ st,
          None).
Proof.
  unfold PackFeeConfig, packFeeConfigHelper, packOrderedHashes.
  cbn [BigToHash GasLimit TargetBlockRate MinBaseFee TargetGas
       BaseFeeChangeDenominator MinBlockGasCost MaxBlockGasCost
       BlockGasCostStep concat].
  rewrite app_nil_r. reflexivity.
Qed.

(** The words of a packed record. *)
Lemma returnPackedHash_app (w rest : bytes) (k : nat) :
  length w = HashLength ->
  returnPackedHash (w ++ rest) (S k) = returnPackedHash rest k.
Proof.
  intros Hw. rewrite returnPackedHash_succ. f_equal.
  rewrite skipn_app, <- Hw, skipn_all, Nat.sub_diag. reflexivity.
Qed.

Lemma returnPackedHash_head (w rest : bytes) :
  length w = HashLength -> returnPackedHash (w ++ rest) 0 = w.
Proof.
  intros Hw. unfold returnPackedHash. rewrite Nat.mul_0_r. cbn [skipn].
  rewrite firstn_app, <- Hw, firstn_all, Nat.sub_diag. cbn [firstn].
  apply app_nil_r.
Qed.

Lemma returnPackedHash_single (w : bytes) :
  length w = HashLength -> returnPackedHash w 0 = w.
Proof.
  intros Hw. unfold returnPackedHash. rewrite Nat.mul_0_r. cbn [skipn].
  rewrite <- Hw. apply firstn_all.
Qed.

Lemma SetBytes_BigToHashZ_small (z : Z) :
  0 <= z < 2 ^ 256 -> SetBytes (BigToHashZ z) = z.
Proof.
  intros Hz. rewrite <- Big_unfold. apply Big_BigToHashZ_small. exact Hz.
Qed.

(** The words of a packed record are the words of its fields. *)
Lemma packed_words (h0 h1 h2 h3 h4 h5 h6 h7 : Hash) :
  length h0 = HashLength -> length h1 = HashLength ->
  length h2 = HashLength -> length h3 = HashLength ->
  length h4 = HashLength -> length h5 = HashLength ->
  length h6 = HashLength -> length h7 = HashLength ->
  let packed := h0 ++ h1 ++ h2 ++ h3 ++ h4 ++ h5 ++ h6 ++ h7 in
  length packed = feeConfigInputLen /\
  returnPackedHash packed 0 = h0 /\ returnPackedHash packed 1 = h1 /\
  returnPackedHash packed 2 = h2 /\ returnPackedHash packed 3 = h3 /\
  returnPackedHash packed 4 = h4 /\ returnPackedHash packed 5 = h5 /\
  returnPackedHash packed 6 = h6 /\ returnPackedHash packed 7 = h7.
Proof.
  intros L0 L1 L2 L3 L4 L5 L6 L7 packed. unfold packed. split.
  - rewrite !length_app, L0, L1, L2, L3, L4, L5, L6, L7. reflexivity.
  - repeat split;
      repeat first
        [ rewrite returnPackedHash_app by assumption
        | rewrite returnPackedHash_head by assumption
        | rewrite returnPackedHash_single by assumption ];
      reflexivity.
Qed.

(** The fields read from the words of a packed record whose fields fit
    their words. *)
Lemma packed_fields (g r b t d mn mx st : Z) :
  representable
    (mkFeeConfig (Some g) r (Some b) (Some t) (Some d) (Some mn) (Some mx)
       (Some st)) ->
  let packed :=
    BigToHashZ g ++ BigToHashZ r ++ BigToHashZ b ++ BigToHashZ t ++
    BigToHashZ d ++ BigToHashZ mn ++ BigToHashZ mx ++ BigToHashZ st in
  length packed = feeConfigInputLen /\
  SetBytes (returnPackedHash packed 0) = g /\
  Uint64 (SetBytes (returnPackedHash packed 1)) = r /\
  SetBytes (returnPackedHash packed 2) = b /\
  SetBytes (returnPackedHash packed 3) = t /\
  SetBytes (returnPackedHash packed 4) = d /\
  SetBytes (returnPackedHash packed 5) = mn /\
  SetBytes (returnPackedHash packed 6) = mx /\
  SetBytes (returnPackedHash packed 7) = st.
Proof.
  intros Hr packed. unfold representable in Hr.
  cbn [inWord GasLimit TargetBlockRate MinBaseFee TargetGas
       BaseFeeChangeDenominator MinBlockGasCost MaxBlockGasCost
       BlockGasCostStep] in Hr.
  destruct Hr as (Hg & Hrate & Hb & Ht & Hd & Hmn & Hmx & Hst).
  destruct (packed_words (BigToHashZ g) (BigToHashZ r) (BigToHashZ b)
              (BigToHashZ t) (BigToHashZ d) (BigToHashZ mn) (BigToHashZ mx)
              (BigToHashZ st))
    as (Hl & E0 & E1 & E2 & E3 & E4 & E5 & E6 & E7);
    try apply BigToHashZ_length.
  fold packed in Hl, E0, E1, E2, E3, E4, E5, E6, E7.
  split; [exact Hl|].
  rewrite E0, E1, E2, E3, E4, E5, E6, E7.
  rewrite !SetBytes_BigToHashZ_small by lia.
  rewrite Uint64_small by lia. repeat split; reflexivity.
Qed.

(** The decoded record of a packed record whose fields fit their words. *)
Lemma wordsFeeConfig_packed (g r b t d mn mx st : Z) :
  representable
    (mkFeeConfig (Some g) r (Some b) (Some t) (Some d) (Some mn) (Some mx)
       (Some st)) ->
  let packed :=
    BigToHashZ g ++ BigToHashZ r ++ BigToHashZ b ++ BigToHashZ t ++
    BigToHashZ d ++ BigToHashZ mn ++ BigToHashZ mx ++ BigToHashZ st in
  length packed = feeConfigInputLen /\
  wordsFeeConfig packed =
    mkFeeConfig (Some g) r (Some b) (Some t) (Some d) (Some mn) (Some mx)
      (Some st).
Proof.
  intros Hr packed.
  destruct (packed_fields _ _ _ _ _ _ _ _ Hr)
    as (Hl & E0 & E1 & E2 & E3 & E4 & E5 & E6 & E7).
  fold packed in Hl, E0, E1, E2, E3, E4, E5, E6, E7.
  split; [exact Hl|].
  unfold wordsFeeConfig. rewrite E0, E1, E2, E3, E4, E5, E6, E7.
  reflexivity.
Qed.

(** C3. Round trip: a record whose fields all fit a 256-bit word and whose
    target block rate is in the 64-bit range is packed without error, and
    unpacking the packed bytes gives the record back. *)
Theorem UnpackFeeConfigInput_PackFeeConfig (r : FeeConfig) :
  representable r ->
  exists packed,
    PackFeeConfig r = Some (packed, None) /\
    UnpackFeeConfigInput packed = Some (r, None).
Proof.
  intros Hr.
  destruct r as [[g|] rate [b|] [t|] [d|] [mn|] [mx|] [st|]];
    try (unfold representable in Hr; cbn [inWord GasLimit TargetBlockRate
           MinBaseFee TargetGas BaseFeeChangeDenominator MinBlockGasCost
           MaxBlockGasCost BlockGasCostStep] in Hr; tauto).
  rewrite PackFeeConfig_words. eexists; split; [reflexivity|].
  destruct (wordsFeeConfig_packed _ _ _ _ _ _ _ _ Hr) as [Hl Hw].
  rewrite (UnpackFeeConfigInput_words _ Hl).
  fold (wordsFeeConfig
          (BigToHashZ g ++ BigToHashZ rate ++ BigToHashZ b ++ BigToHashZ t ++
           BigToHashZ d ++ BigToHashZ mn ++ BigToHashZ mx ++ BigToHashZ st)).
  rewrite Hw. reflexivity.
Qed.

Lemma UnpackFeeConfigInput_PackFeeConfig_witness :
  exists packed,
    PackFeeConfig exampleFeeConfig = Some (packed, None) /\
    UnpackFeeConfigInput packed = Some (exampleFeeConfig, None).
Proof.
  apply (UnpackFeeConfigInput_PackFeeConfig exampleFeeConfig).
  unfold representable, exampleFeeConfig; simpl; lia.
Defined.

(** C4, as the program has it. The decoder does no range check on the
    target block rate: every input of 256 bytes is accepted, and the rate is
    the second word reduced modulo [2^64]. *)
Theorem UnpackFeeConfigInput_rate_truncated (input : bytes) :
  length input = 256%nat ->
  exists feeConfig,
    UnpackFeeConfigInput input = Some (feeConfig, None) /\
    TargetBlockRate feeConfig =
      SetBytes (firstn 32 (skipn 32 input)) mod 2 ^ 64.
Proof.
  intros Hl. rewrite (UnpackFeeConfigInput_words input Hl).
  eexists; split; [reflexivity|].
  cbn [TargetBlockRate]. unfold Uint64.
  rewrite Z.abs_eq by apply SetBytes_nonneg. reflexivity.
Qed.

Lemma UnpackFeeConfigInput_rate_truncated_witness :
  exists feeConfig,
    UnpackFeeConfigInput overflowInput = Some (feeConfig, None) /\
    TargetBlockRate feeConfig =
      SetBytes (firstn 32 (skipn 32 overflowInput)) mod 2 ^ 64.
Proof.
  apply (UnpackFeeConfigInput_rate_truncated overflowInput).
  reflexivity.
Defined.

(** C4, the claim as it is written, fails: this input has 256 bytes and a
    second word above the 64-bit range, and the decoder returns a record and
    no error; the record is the one [2] would have given. *)
Lemma UnpackFeeConfigInput_accepts_overflow :
  length overflowInput = 256%nat /\
  2 ^ 64 <= SetBytes (returnPackedHash overflowInput 1) /\
  UnpackFeeConfigInput overflowInput = Some (exampleFeeConfig, None).
Proof.
  split; [reflexivity|]. split; [vm_compute; discriminate|].
  vm_compute. reflexivity.
Qed.

(** C8. Length guard: an input whose length is not [8 * 32 = 256] bytes is
    refused with the invalid-length error, and the record returned with the
    error is the empty one: nil pointers and a zero rate. *)
Theorem UnpackFeeConfigInput_length_guard (input : bytes) :
  length input <> (8 * 32)%nat ->
  UnpackFeeConfigInput input =
    Some (mkFeeConfig None 0 None None None None None None,
          Some (ErrInvalidInputLength (length input))).
Proof.
  intros Hl. apply UnpackFeeConfigInput_short. exact Hl.
Qed.

Lemma UnpackFeeConfigInput_length_guard_witness :
  UnpackFeeConfigInput [x01; x02; x03] =
    Some (mkFeeConfig None 0 None None None None None None,
          Some (ErrInvalidInputLength 3)).
Proof.
  apply (UnpackFeeConfigInput_length_guard [x01; x02; x03]).
  simpl; lia.
Defined.

(** ** Gas *)

Lemma deductGas_enough (suppliedGas requiredGas : N) :
  (requiredGas <= suppliedGas)%N ->
  deductGas suppliedGas requiredGas = ((suppliedGas - requiredGas)%N, None).
Proof.
  intros Hg. unfold deductGas.
  destruct (N.ltb_spec suppliedGas requiredGas); [lia | reflexivity].
Qed.

Lemma deductGas_short (suppliedGas requiredGas : N) :
  (suppliedGas < requiredGas)%N ->
  deductGas suppliedGas requiredGas = (0%N, Some ErrOutOfGas).
Proof.
  intros Hg. unfold deductGas.
  destruct (N.ltb_spec suppliedGas requiredGas); [reflexivity | lia].
Qed.

(** ** The slot keys *)

Lemma feeConfigSlotKeys_bytes :
  feeConfigSlotKeys =
    [ x01 :: repeat x00 31; x02 :: repeat x00 31; x03 :: repeat x00 31;
      x04 :: repeat x00 31; x05 :: repeat x00 31; x06 :: repeat x00 31;
      x07 :: repeat x00 31; x08 :: repeat x00 31;
      x6c :: x63 :: x61 :: repeat x00 29 ].
Proof. reflexivity. Qed.

Lemma feeConfigSlotKeys_NoDup : NoDup feeConfigSlotKeys.
Proof.
  rewrite feeConfigSlotKeys_bytes.
  repeat (constructor; [simpl; intuition discriminate|]). constructor.
Qed.

Ltac key_neq :=
  let E := fresh "E" in
  intros E; vm_compute in E; discriminate E.

Section StoreProperties.

Context {S : Type} `{StateDB S}.
Variable FeeConfigManagerAddress : Address.
Variable Verify : FeeConfig -> option error.

Lemma GetState_SetState_key (s : S) (a : Address) (k v k' : Hash) :
  k' <> k -> GetState (SetState s a k v) a k' = GetState s a k'.
Proof.
  intros Hk. apply GetState_SetState_other. intros E. apply Hk.
  injection E as E. exact E.
Qed.

Lemma GetState_SetState_frame (s : S) (a a' : Address) (k v k' : Hash) :
  a' <> a \/ k' <> k ->
  GetState (SetState s a k v) a' k' = GetState s a' k'.
Proof.
  intros Hk. apply GetState_SetState_other. intros E.
  injection E as Ea Ek. tauto.
Qed.

(** The decoder of the stored record reads the eight field slots. *)
Lemma GetStoredFeeConfig_slots (s : S) :
  GetStoredFeeConfig FeeConfigManagerAddress s =
    Some (mkFeeConfig
            (Some (Big (GetState s FeeConfigManagerAddress (fieldSlotKey 1))))
            (Uint64 (Big (GetState s FeeConfigManagerAddress (fieldSlotKey 2))))
            (Some (Big (GetState s FeeConfigManagerAddress (fieldSlotKey 3))))
            (Some (Big (GetState s FeeConfigManagerAddress (fieldSlotKey 4))))
            (Some (Big (GetState s FeeConfigManagerAddress (fieldSlotKey 5))))
            (Some (Big (GetState s FeeConfigManagerAddress (fieldSlotKey 6))))
            (Some (Big (GetState s FeeConfigManagerAddress (fieldSlotKey 7))))
            (Some (Big (GetState s FeeConfigManagerAddress (fieldSlotKey 8))))).
Proof. reflexivity. Qed.

(** The loop of [StoreFeeConfig] on a record without nil fields. *)
Lemma storeField_loop (s : S) (g r b t d mn mx st : Z) :
  forFieldKeys
    (storeField FeeConfigManagerAddress
       (mkFeeConfig (Some g) r (Some b) (Some t) (Some d) (Some mn)
          (Some mx) (Some st))) s =
    Some (storedFields FeeConfigManagerAddress s
            (BigToHashZ g) (BigToHashZ r) (BigToHashZ b) (BigToHashZ t)
            (BigToHashZ d) (BigToHashZ mn) (BigToHashZ mx) (BigToHashZ st)).
Proof. reflexivity. Qed.

Lemma StoreFeeConfig_nonnil (s : S) (g r b t d mn mx st : Z)
    (blockContext : BlockContext) :
  let feeConfig :=
    mkFeeConfig (Some g) r (Some b) (Some t) (Some d) (Some mn) (Some mx)
      (Some st) in
  let s8 :=
    storedFields FeeConfigManagerAddress s
      (BigToHashZ g) (BigToHashZ r) (BigToHashZ b) (BigToHashZ t)
      (BigToHashZ d) (BigToHashZ mn) (BigToHashZ mx) (BigToHashZ st) in
  StoreFeeConfig FeeConfigManagerAddress Verify s feeConfig blockContext =
    match Verify feeConfig with
    | Some err => Some (s, Some err)
    | None =>
        match Number blockContext with
        | None => Some (s8, Some ErrBlockNumberNil)
        | Some blockNumber =>
            Some (SetState s8 FeeConfigManagerAddress
                    feeConfigLastChangedAtKey (BigToHashZ blockNumber),
                  None)
        end
    end.
Proof.
  intros feeConfig s8. unfold StoreFeeConfig.
  destruct (Verify feeConfig); [reflexivity|].
  unfold feeConfig. rewrite storeField_loop. reflexivity.
Qed.

(** Reading the nine slots back after the nine writes. *)
Lemma storedFields_read (s : S) (h1 h2 h3 h4 h5 h6 h7 h8 hn : Hash) :
  let s9 :=
    SetState
      (storedFields FeeConfigManagerAddress s h1 h2 h3 h4 h5 h6 h7 h8)
      FeeConfigManagerAddress feeConfigLastChangedAtKey hn in
  GetState s9 FeeConfigManagerAddress (fieldSlotKey 1) = h1 /\
  GetState s9 FeeConfigManagerAddress (fieldSlotKey 2) = h2 /\
  GetState s9 FeeConfigManagerAddress (fieldSlotKey 3) = h3 /\
  GetState s9 FeeConfigManagerAddress (fieldSlotKey 4) = h4 /\
  GetState s9 FeeConfigManagerAddress (fieldSlotKey 5) = h5 /\
  GetState s9 FeeConfigManagerAddress (fieldSlotKey 6) = h6 /\
  GetState s9 FeeConfigManagerAddress (fieldSlotKey 7) = h7 /\
  GetState s9 FeeConfigManagerAddress (fieldSlotKey 8) = h8 /\
  GetState s9 FeeConfigManagerAddress feeConfigLastChangedAtKey = hn.
Proof.
  intros s9. unfold s9, storedFields.
  repeat split;
    repeat (rewrite GetState_SetState_key by key_neq);
    apply GetState_SetState_same.
Qed.

(** The nine writes leave every other slot as it was. *)
Lemma storedFields_frame (s : S) (h1 h2 h3 h4 h5 h6 h7 h8 hn : Hash)
    (a : Address) (k : Hash) :
  a <> FeeConfigManagerAddress \/ ~ In k feeConfigSlotKeys ->
  GetState
    (SetState
       (storedFields FeeConfigManagerAddress s h1 h2 h3 h4 h5 h6 h7 h8)
       FeeConfigManagerAddress feeConfigLastChangedAtKey hn) a k =
    GetState s a k.
Proof.
  intros Hk. unfold storedFields.
  repeat (rewrite GetState_SetState_frame;
          [| destruct Hk as [Ha|Hk]; [left; exact Ha|];
             right; intros E; apply Hk; rewrite E;
             vm_compute; tauto ]).
  reflexivity.
Qed.

End StoreProperties.

(** ** The handlers *)

Section HandlerProperties.

Context {S : Type} `{StateDB S}.
Variable FeeConfigManagerAddress : Address.
Variables writeGasCostPerSlot readGasCostPerSlot : N.
Variable Verify : FeeConfig -> option error.
Variable getAllowListStatus : S -> Address -> Address -> AllowListRole.

Local Abbreviation setCost := (SetFeeConfigGasCost writeGasCostPerSlot).
Local Abbreviation getCost := (GetFeeConfigGasCost readGasCostPerSlot).
Local Abbreviation lastCost := (GetLastChangedAtGasCost readGasCostPerSlot).
Local Abbreviation set_handler :=
  (setFeeConfig FeeConfigManagerAddress writeGasCostPerSlot Verify
     getAllowListStatus).
Local Abbreviation get_handler :=
  (getFeeConfig FeeConfigManagerAddress readGasCostPerSlot).
Local Abbreviation last_handler :=
  (getFeeConfigLastChangedAt FeeConfigManagerAddress readGasCostPerSlot).

(** [setFeeConfig], check by check, in the order of the program: gas,
    write protection, decoding, permission, validation, the eight field
    writes, the block number, the last write. The handler never panics. *)
Lemma setFeeConfig_cases (s : S) (blockContext : BlockContext)
    (caller addr : Address) (input : bytes) (suppliedGas : N)
    (readOnly : bool) :
  set_handler (mkAccessibleState s blockContext) caller addr input
    suppliedGas readOnly =
    if (suppliedGas <? setCost)%N then
      Some ((None, 0%N, Some ErrOutOfGas), s)
    else if readOnly then
      Some ((None, (suppliedGas - setCost)%N, Some ErrWriteProtection), s)
    else if negb (length input =? feeConfigInputLen)%nat then
      Some ((None, (suppliedGas - setCost)%N,
             Some (ErrInvalidInputLength (length input))), s)
    else if negb (IsEnabled
                    (getAllowListStatus s FeeConfigManagerAddress caller))
    then
      Some ((None, (suppliedGas - setCost)%N,
             Some (ErrCannotChangeFee caller)), s)
    else
      match Verify (wordsFeeConfig input) with
      | Some err => Some ((None, (suppliedGas - setCost)%N, Some err), s)
      | None =>
          match Number blockContext with
          | None =>
              Some ((None, (suppliedGas - setCost)%N,
                     Some ErrBlockNumberNil),
                    storedWords FeeConfigManagerAddress s input)
          | Some blockNumber =>
              Some ((Some [], (suppliedGas - setCost)%N, None),
                    SetState (storedWords FeeConfigManagerAddress s input)
                      FeeConfigManagerAddress feeConfigLastChangedAtKey
                      (BigToHashZ blockNumber))
          end
      end.
Proof.
  unfold setFeeConfig, deductGas. cbn [GetStateDB GetBlockContext].
  destruct (suppliedGas <? setCost)%N; [reflexivity|].
  destruct readOnly; [reflexivity|].
  destruct (length input =? feeConfigInputLen)%nat eqn:Hl; cbn [negb].
  - apply Nat.eqb_eq in Hl. rewrite (UnpackFeeConfigInput_words input Hl).
    destruct (IsEnabled _); cbn [negb]; [|reflexivity].
    rewrite StoreFeeConfig_nonnil. fold (wordsFeeConfig input).
    destruct (Verify (wordsFeeConfig input)); [reflexivity|].
    destruct (Number blockContext); reflexivity.
  - apply Nat.eqb_neq in Hl. rewrite (UnpackFeeConfigInput_short input Hl).
    reflexivity.
Qed.

(** [getFeeConfig]: the eight stored words, each cut to its field and
    packed again. The handler never panics and returns the state it was
    given. *)
Lemma getFeeConfig_cases (s : S) (blockContext : BlockContext)
    (caller addr : Address) (input : bytes) (suppliedGas : N)
    (readOnly : bool) :
  get_handler (mkAccessibleState s blockContext) caller addr input
    suppliedGas readOnly =
    if (suppliedGas <? getCost)%N then
      Some ((None, 0%N, Some ErrOutOfGas), s)
    else
      let word i :=
        Big (GetState s FeeConfigManagerAddress (fieldSlotKey i)) in
      Some ((Some (BigToHashZ (word 1%nat) ++
                   BigToHashZ (Uint64 (word 2%nat)) ++
                   BigToHashZ (word 3%nat) ++ BigToHashZ (word 4%nat) ++
                   BigToHashZ (word 5%nat) ++ BigToHashZ (word 6%nat) ++
                   BigToHashZ (word 7%nat) ++ BigToHashZ (word 8%nat)),
             (suppliedGas - getCost)%N, None), s).
Proof.
  unfold getFeeConfig, deductGas. cbn [GetStateDB].
  destruct (suppliedGas <? getCost)%N; [reflexivity|].
  rewrite GetStoredFeeConfig_slots, PackFeeConfig_words. reflexivity.
Qed.

Lemma getFeeConfigLastChangedAt_cases (s : S) (blockContext : BlockContext)
    (caller addr : Address) (input : bytes) (suppliedGas : N)
    (readOnly : bool) :
  last_handler (mkAccessibleState s blockContext) caller addr input
    suppliedGas readOnly =
    if (suppliedGas <? lastCost)%N then
      Some ((None, 0%N, Some ErrOutOfGas), s)
    else
      Some ((Some (BigToHashZ
                     (Big (GetState s FeeConfigManagerAddress
                             feeConfigLastChangedAtKey))),
             (suppliedGas - lastCost)%N, None), s).
Proof.
  unfold getFeeConfigLastChangedAt, deductGas. cbn [GetStateDB].
  destruct (suppliedGas <? lastCost)%N; reflexivity.
Qed.

Lemma SetFeeConfigGasCost_eq :
  setCost = ((8 + 1) * writeGasCostPerSlot)%N.
Proof.
  unfold SetFeeConfigGasCost.
  change (N.of_nat (numFeeConfigField + 1)) with 9%N. lia.
Qed.

Lemma GetFeeConfigGasCost_eq : getCost = (8 * readGasCostPerSlot)%N.
Proof.
  unfold GetFeeConfigGasCost.
  change (N.of_nat numFeeConfigField) with 8%N. lia.
Qed.

(** Where [setFeeConfig] fails, the state is the one it was given, but for
    one failure: after the eight field writes, on a nil block number. *)
Lemma setFeeConfig_failure_state (s s' : S) (blockContext : BlockContext)
    (caller addr : Address) (input : bytes) (suppliedGas : N)
    (readOnly : bool) (ret : option bytes) (remainingGas : N) (e : error) :
  set_handler (mkAccessibleState s blockContext) caller addr input
    suppliedGas readOnly = Some ((ret, remainingGas, Some e), s') ->
  s' = s \/
  (Number blockContext = None /\ e = ErrBlockNumberNil /\
   s' = storedWords FeeConfigManagerAddress s input).
Proof.
  rewrite setFeeConfig_cases.
  destruct (suppliedGas <? setCost)%N;
    [intros E; injection E as _ _ _ <-; left; reflexivity|].
  destruct readOnly;
    [intros E; injection E as _ _ _ <-; left; reflexivity|].
  destruct (negb (length input =? feeConfigInputLen)%nat);
    [intros E; injection E as _ _ _ <-; left; reflexivity|].
  destruct (negb (IsEnabled _));
    [intros E; injection E as _ _ _ <-; left; reflexivity|].
  destruct (Verify (wordsFeeConfig input));
    [intros E; injection E as _ _ _ <-; left; reflexivity|].
  destruct (Number blockContext); [discriminate|].
  intros E; injection E as _ _ <- <-. right. auto.
Qed.

(** C6. Write protection: a read-only call to [setFeeConfig] with at least
    the fixed cost of [(8 + 1)] slot writes in gas fails with the
    write-protection error, the gas that remains is the supplied gas minus
    that cost, and the state returned is the state given: no slot of the
    fee config or of last-changed-at is touched. *)
Theorem setFeeConfig_write_protection (s : S) (blockContext : BlockContext)
    (caller addr : Address) (input : bytes) (suppliedGas : N) :
  ((8 + 1) * writeGasCostPerSlot <= suppliedGas)%N ->
  set_handler (mkAccessibleState s blockContext) caller addr input
    suppliedGas true =
    Some ((None, (suppliedGas - (8 + 1) * writeGasCostPerSlot)%N,
           Some ErrWriteProtection), s).
Proof.
  intros Hg. rewrite setFeeConfig_cases, SetFeeConfigGasCost_eq.
  destruct (N.ltb_spec suppliedGas ((8 + 1) * writeGasCostPerSlot)%N);
    [lia | reflexivity].
Qed.

(** C5, as the program has it. The input is decoded before the allow list
    is consulted: a caller without a role, with enough gas and outside a
    read-only context, gets the unauthorized error when the input has 256
    bytes and the invalid-length error otherwise; the state is untouched
    either way. *)
Theorem setFeeConfig_no_role (s : S) (blockContext : BlockContext)
    (caller addr : Address) (input : bytes) (suppliedGas : N) :
  getAllowListStatus s FeeConfigManagerAddress caller = AllowListNoRole ->
  (setCost <= suppliedGas)%N ->
  set_handler (mkAccessibleState s blockContext) caller addr input
    suppliedGas false =
    Some ((None, (suppliedGas - setCost)%N,
           Some (if (length input =? 256)%nat
                 then ErrCannotChangeFee caller
                 else ErrInvalidInputLength (length input))), s).
Proof.
  intros Hrole Hg. rewrite setFeeConfig_cases, Hrole.
  destruct (N.ltb_spec suppliedGas setCost); [lia|].
  change feeConfigInputLen with 256%nat.
  destruct (length input =? 256)%nat; reflexivity.
Qed.

(** C7. Gas accounting of the three handlers: each returns, never with
    more gas than supplied; on success with the supplied gas minus its
    cost; with too little gas with the out-of-gas error and no gas. The
    costs are [(8 + 1)] slot writes, [8] slot reads and one slot read. *)
Theorem handlers_gas_accounting :
  setCost = ((8 + 1) * writeGasCostPerSlot)%N /\
  getCost = (8 * readGasCostPerSlot)%N /\
  lastCost = readGasCostPerSlot /\
  forall (accessibleState : PrecompileAccessibleState S)
         (caller addr : Address) (input : bytes) (suppliedGas : N)
         (readOnly : bool),
    gasAccounted setCost suppliedGas
      (set_handler accessibleState caller addr input suppliedGas readOnly)
    /\
    gasAccounted getCost suppliedGas
      (get_handler accessibleState caller addr input suppliedGas readOnly)
    /\
    gasAccounted lastCost suppliedGas
      (last_handler accessibleState caller addr input suppliedGas readOnly).
Proof.
  split; [apply SetFeeConfigGasCost_eq|].
  split; [apply GetFeeConfigGasCost_eq|].
  split; [reflexivity|].
  intros [s blockContext] caller addr input suppliedGas readOnly.
  unfold gasAccounted.
  rewrite setFeeConfig_cases, getFeeConfig_cases,
    getFeeConfigLastChangedAt_cases.
  repeat split.
  - destruct (N.ltb_spec suppliedGas setCost);
      [do 4 eexists; split; [reflexivity|];
       repeat split; (lia || discriminate)|].
    destruct readOnly;
      [do 4 eexists; split; [reflexivity|];
       repeat split; (lia || discriminate)|].
    destruct (negb (length input =? feeConfigInputLen)%nat);
      [do 4 eexists; split; [reflexivity|];
       repeat split; (lia || discriminate)|].
    destruct (negb (IsEnabled _));
      [do 4 eexists; split; [reflexivity|];
       repeat split; (lia || discriminate)|].
    destruct (Verify (wordsFeeConfig input));
      [do 4 eexists; split; [reflexivity|];
       repeat split; (lia || discriminate)|].
    destruct (Number blockContext);
      do 4 eexists; (split; [reflexivity|]);
      repeat split; (lia || discriminate).
  - destruct (N.ltb_spec suppliedGas getCost);
      do 4 eexists; (split; [reflexivity|]);
      repeat split; (lia || discriminate).
  - destruct (N.ltb_spec suppliedGas lastCost);
      do 4 eexists; (split; [reflexivity|]);
      repeat split; (lia || discriminate).
Qed.

(** C10. The getters do not write: for every caller, input, gas and
    read-only flag, [getFeeConfig] and [getFeeConfigLastChangedAt] return,
    and the state after the call is the state before it, so every slot of
    every contract reads as before. *)
Theorem getters_do_not_write :
  forall (accessibleState : PrecompileAccessibleState S)
         (caller addr : Address) (input : bytes) (suppliedGas : N)
         (readOnly : bool),
    (exists result s',
       get_handler accessibleState caller addr input suppliedGas readOnly =
         Some (result, s') /\
       s' = GetStateDB accessibleState /\
       forall a k,
         GetState s' a k = GetState (GetStateDB accessibleState) a k) /\
    (exists result s',
       last_handler accessibleState caller addr input suppliedGas readOnly =
         Some (result, s') /\
       s' = GetStateDB accessibleState /\
       forall a k,
         GetState s' a k = GetState (GetStateDB accessibleState) a k).
Proof.
  intros [s blockContext] caller addr input suppliedGas readOnly.
  rewrite getFeeConfig_cases, getFeeConfigLastChangedAt_cases.
  cbn [GetStateDB]. split.
  - destruct (suppliedGas <? getCost)%N;
      do 2 eexists; (split; [reflexivity|]); auto.
  - destruct (suppliedGas <? lastCost)%N;
      do 2 eexists; (split; [reflexivity|]); auto.
Qed.

Lemma Some_pair_fst {A B : Type} (a a' : A) (b b' : B) :
  Some (a, b) = Some (a', b') -> a = a'.
Proof. intros E. congruence. Qed.

Lemma BigToHashZ_Big (h : Hash) :
  length h = HashLength -> BigToHashZ (Big h) = h.
Proof. intros Hh. rewrite Big_unfold. apply BigToHashZ_SetBytes, Hh. Qed.

(** The eight words written for a packed record are the words of its
    fields. *)
Lemma storedWords_packed (s : S) (g r b t d mn mx st : Z) :
  representable
    (mkFeeConfig (Some g) r (Some b) (Some t) (Some d) (Some mn) (Some mx)
       (Some st)) ->
  storedWords FeeConfigManagerAddress s
    (BigToHashZ g ++ BigToHashZ r ++ BigToHashZ b ++ BigToHashZ t ++
     BigToHashZ d ++ BigToHashZ mn ++ BigToHashZ mx ++ BigToHashZ st) =
    storedFields FeeConfigManagerAddress s
      (BigToHashZ g) (BigToHashZ r) (BigToHashZ b) (BigToHashZ t)
      (BigToHashZ d) (BigToHashZ mn) (BigToHashZ mx) (BigToHashZ st).
Proof.
  intros Hr.
  destruct (packed_fields _ _ _ _ _ _ _ _ Hr)
    as (_ & E0 & E1 & E2 & E3 & E4 & E5 & E6 & E7).
  cbv zeta in E0, E1, E2, E3, E4, E5, E6, E7.
  unfold storedWords. rewrite E0, E1, E2, E3, E4, E5, E6, E7.
  reflexivity.
Qed.

(** C2. Success: a caller with the Enabled or the Admin role sends the
    packing of a record that fits its words and passes the policy, with
    at least the fixed cost in gas, outside a read-only context, at block
    number [n]. The call succeeds with an empty output and the supplied
    gas minus the cost; in the state after it, [getFeeConfig] returns the
    same packed record and [getFeeConfigLastChangedAt] returns the word
    of [n], which reads back as [n] when [n] fits a word. *)
Theorem setFeeConfig_success (s : S) (blockContext : BlockContext)
    (caller addr : Address) (r : FeeConfig) (input : bytes)
    (suppliedGas : N) (n : Z) :
  getAllowListStatus s FeeConfigManagerAddress caller = AllowListEnabled \/
  getAllowListStatus s FeeConfigManagerAddress caller = AllowListAdmin ->
  representable r ->
  Verify r = None ->
  PackFeeConfig r = Some (input, None) ->
  (setCost <= suppliedGas)%N ->
  Number blockContext = Some n ->
  exists s',
    set_handler (mkAccessibleState s blockContext) caller addr input
      suppliedGas false =
      Some ((Some [], (suppliedGas - setCost)%N, None), s') /\
    length input = 256%nat /\
    (forall blockContext' caller' addr' input' suppliedGas' readOnly',
       (getCost <= suppliedGas')%N ->
       get_handler (mkAccessibleState s' blockContext') caller' addr'
         input' suppliedGas' readOnly' =
         Some ((Some input, (suppliedGas' - getCost)%N, None), s')) /\
    (forall blockContext' caller' addr' input' suppliedGas' readOnly',
       (lastCost <= suppliedGas')%N ->
       last_handler (mkAccessibleState s' blockContext') caller' addr'
         input' suppliedGas' readOnly' =
         Some ((Some (BigToHashZ n), (suppliedGas' - lastCost)%N, None),
               s')) /\
    (0 <= n < 2 ^ 256 -> SetBytes (BigToHashZ n) = n).
Proof.
  intros Hrole Hrep Hver Hpack Hg Hn.
  destruct r as [[g|] rate [b|] [t|] [d|] [mn|] [mx|] [st|]];
    try (unfold representable in Hrep; cbn [inWord GasLimit
           TargetBlockRate MinBaseFee TargetGas BaseFeeChangeDenominator
           MinBlockGasCost MaxBlockGasCost BlockGasCostStep] in Hrep;
         tauto).
  rewrite PackFeeConfig_words in Hpack.
  apply Some_pair_fst in Hpack. subst input.
  destruct (wordsFeeConfig_packed _ _ _ _ _ _ _ _ Hrep) as [Hl Hw].
  cbv zeta in Hl, Hw.
  exists (SetState
            (storedFields FeeConfigManagerAddress s
               (BigToHashZ g) (BigToHashZ rate) (BigToHashZ b)
               (BigToHashZ t) (BigToHashZ d) (BigToHashZ mn)
               (BigToHashZ mx) (BigToHashZ st))
            FeeConfigManagerAddress feeConfigLastChangedAtKey
            (BigToHashZ n)).
  pose proof (storedFields_read FeeConfigManagerAddress s
                (BigToHashZ g) (BigToHashZ rate) (BigToHashZ b)
                (BigToHashZ t) (BigToHashZ d) (BigToHashZ mn)
                (BigToHashZ mx) (BigToHashZ st) (BigToHashZ n)) as Hread.
  cbv zeta in Hread.
  destruct Hread as (R1 & R2 & R3 & R4 & R5 & R6 & R7 & R8 & R9).
  unfold representable in Hrep.
  cbn [inWord GasLimit TargetBlockRate MinBaseFee TargetGas
       BaseFeeChangeDenominator MinBlockGasCost MaxBlockGasCost
       BlockGasCostStep] in Hrep.
  destruct Hrep as (Hg' & Hrate & Hb & Ht & Hd & Hmn & Hmx & Hst).
  split; [|split; [exact Hl|split; [|split]]].
  - rewrite setFeeConfig_cases, Hl, Nat.eqb_refl, Hw, Hver, Hn.
    rewrite storedWords_packed
      by (unfold representable; cbn [inWord GasLimit TargetBlockRate
            MinBaseFee TargetGas BaseFeeChangeDenominator MinBlockGasCost
            MaxBlockGasCost BlockGasCostStep]; tauto).
    destruct (N.ltb_spec suppliedGas setCost); [lia|].
    destruct Hrole as [-> | ->]; reflexivity.
  - intros blockContext' caller' addr' input' suppliedGas' readOnly' Hg2.
    rewrite getFeeConfig_cases.
    destruct (N.ltb_spec suppliedGas' getCost); [lia|].
    cbv beta zeta. rewrite R1, R2, R3, R4, R5, R6, R7, R8.
    rewrite !Big_BigToHashZ_small by lia.
    rewrite Uint64_small by lia. reflexivity.
  - intros blockContext' caller' addr' input' suppliedGas' readOnly' Hg2.
    rewrite getFeeConfigLastChangedAt_cases.
    destruct (N.ltb_spec suppliedGas' lastCost); [lia|].
    rewrite R9, BigToHashZ_Big by apply BigToHashZ_length. reflexivity.
  - apply SetBytes_BigToHashZ_small.
Qed.

(** C9. Storage layout: [StoreFeeConfig], on a record that passes the
    policy and with a block number, writes the word of field [i] to the
    slot key whose first byte is [i] and whose other bytes are zero, for
    the eight fields in their order, and the word of the block number to
    the key ['l', 'c', 'a'] followed by zeros; it writes nothing else;
    the nine keys are pairwise distinct. *)
Theorem StoreFeeConfig_layout (s : S) (blockContext : BlockContext)
    (g r b t d mn mx st n : Z) :
  Verify (mkFeeConfig (Some g) r (Some b) (Some t) (Some d) (Some mn)
            (Some mx) (Some st)) = None ->
  Number blockContext = Some n ->
  exists s',
    StoreFeeConfig FeeConfigManagerAddress Verify s
      (mkFeeConfig (Some g) r (Some b) (Some t) (Some d) (Some mn)
         (Some mx) (Some st)) blockContext = Some (s', None) /\
    GetState s' FeeConfigManagerAddress (x01 :: repeat x00 31) =
      BigToHashZ g /\
    GetState s' FeeConfigManagerAddress (x02 :: repeat x00 31) =
      BigToHashZ r /\
    GetState s' FeeConfigManagerAddress (x03 :: repeat x00 31) =
      BigToHashZ b /\
    GetState s' FeeConfigManagerAddress (x04 :: repeat x00 31) =
      BigToHashZ t /\
    GetState s' FeeConfigManagerAddress (x05 :: repeat x00 31) =
      BigToHashZ d /\
    GetState s' FeeConfigManagerAddress (x06 :: repeat x00 31) =
      BigToHashZ mn /\
    GetState s' FeeConfigManagerAddress (x07 :: repeat x00 31) =
      BigToHashZ mx /\
    GetState s' FeeConfigManagerAddress (x08 :: repeat x00 31) =
      BigToHashZ st /\
    GetState s' FeeConfigManagerAddress
      (x6c :: x63 :: x61 :: repeat x00 29) = BigToHashZ n /\
    (forall a k,
       a <> FeeConfigManagerAddress \/
       ~ In k [ x01 :: repeat x00 31; x02 :: repeat x00 31;
                x03 :: repeat x00 31; x04 :: repeat x00 31;
                x05 :: repeat x00 31; x06 :: repeat x00 31;
                x07 :: repeat x00 31; x08 :: repeat x00 31;
                x6c :: x63 :: x61 :: repeat x00 29 ] ->
       GetState s' a k = GetState s a k) /\
    NoDup [ x01 :: repeat x00 31; x02 :: repeat x00 31;
            x03 :: repeat x00 31; x04 :: repeat x00 31;
            x05 :: repeat x00 31; x06 :: repeat x00 31;
            x07 :: repeat x00 31; x08 :: repeat x00 31;
            x6c :: x63 :: x61 :: repeat x00 29 ].
Proof.
  intros Hver Hn. rewrite StoreFeeConfig_nonnil. cbv zeta.
  rewrite Hver, Hn. eexists; split; [reflexivity|].
  rewrite <- feeConfigSlotKeys_bytes.
  pose proof (storedFields_read FeeConfigManagerAddress s
                (BigToHashZ g) (BigToHashZ r) (BigToHashZ b)
                (BigToHashZ t) (BigToHashZ d) (BigToHashZ mn)
                (BigToHashZ mx) (BigToHashZ st) (BigToHashZ n)) as Hread.
  cbv zeta in Hread.
  destruct Hread as (R1 & R2 & R3 & R4 & R5 & R6 & R7 & R8 & R9).
  repeat split;
    try assumption;
    try apply feeConfigSlotKeys_NoDup.
  intros a k Hk. apply storedFields_frame. exact Hk.
Qed.

End HandlerProperties.

(** ** The example host *)

(** C1. The program does not keep this one: with a nil block number
    [setFeeConfig] fails after its eight field writes, and the writes stay.
    An Enabled caller sends the packed example record with the exact gas
    and no block number: the call returns the nil-block-number error, and
    the gas limit slot, zero before, holds 8000000 after. *)
Theorem setFeeConfig_nil_block_number_writes :
  storedAllowListStatus exampleState exampleManagerAddress callerB =
    AllowListEnabled /\
  exists s',
    exampleSetFeeConfig (exampleContext exampleState None) callerB []
      exampleInput 180000%N false =
      Some ((None, 0%N, Some ErrBlockNumberNil), s') /\
    GetState exampleState exampleManagerAddress (x01 :: repeat x00 31) =
      repeat x00 32 /\
    GetState s' exampleManagerAddress (x01 :: repeat x00 31) =
      BigToHashZ 8000000 /\
    GetState s' exampleManagerAddress (x01 :: repeat x00 31) <>
      GetState exampleState exampleManagerAddress (x01 :: repeat x00 31).
Proof.
  split; [vm_compute; reflexivity|].
  eexists. split; [vm_compute; reflexivity|].
  split; [vm_compute; reflexivity|].
  split; [vm_compute; reflexivity|].
  vm_compute. discriminate.
Qed.

(** The scenario of the spec: caller B, the example record, the exact gas,
    block 42. *)
Lemma setFeeConfig_success_witness :
  exists s',
    exampleSetFeeConfig (exampleContext exampleState (Some 42)) callerB []
      exampleInput 180000%N false =
      Some ((Some [],
             (180000 - SetFeeConfigGasCost exampleWriteGasCostPerSlot)%N,
             None), s') /\
    exampleGetFeeConfig (exampleContext s' None) callerC [] [] 40000%N true =
      Some ((Some exampleInput,
             (40000 - GetFeeConfigGasCost exampleReadGasCostPerSlot)%N,
             None), s') /\
    exampleGetFeeConfigLastChangedAt (exampleContext s' None) callerC [] []
      5000%N true =
      Some ((Some (BigToHashZ 42),
             (5000 - GetLastChangedAtGasCost exampleReadGasCostPerSlot)%N,
             None), s').
Proof.
  destruct (setFeeConfig_success (S := AssocState) exampleManagerAddress
              exampleWriteGasCostPerSlot exampleReadGasCostPerSlot
              exampleVerify storedAllowListStatus exampleState
              (mkBlockContext (Some 42)) callerB [] exampleFeeConfig
              exampleInput 180000%N 42)
    as (s' & Hset & _ & Hget & Hlast & _).
  - left. vm_compute. reflexivity.
  - unfold representable, exampleFeeConfig; simpl; lia.
  - vm_compute. reflexivity.
  - vm_compute. reflexivity.
  - vm_compute. discriminate.
  - reflexivity.
  - exists s'. split; [exact Hset|]. split.
    + apply Hget. vm_compute. discriminate.
    + apply Hlast. vm_compute. discriminate.
Defined.

Lemma setFeeConfig_no_role_witness :
  exampleSetFeeConfig (exampleContext exampleState (Some 42)) callerC []
    exampleInput 180000%N false =
    Some ((None,
           (180000 - SetFeeConfigGasCost exampleWriteGasCostPerSlot)%N,
           Some (if (length exampleInput =? 256)%nat
                 then ErrCannotChangeFee callerC
                 else ErrInvalidInputLength (length exampleInput))),
          exampleState).
Proof.
  apply (setFeeConfig_no_role (S := AssocState) exampleManagerAddress
           exampleWriteGasCostPerSlot exampleVerify storedAllowListStatus
           exampleState (mkBlockContext (Some 42)) callerC [] exampleInput
           180000%N).
  - vm_compute. reflexivity.
  - vm_compute. discriminate.
Defined.

(** C5, the claim as it is written, fails: a caller without a role sends an
    empty input with enough gas outside a read-only context, and the error
    is the invalid-length one, not the unauthorized one. *)
Lemma setFeeConfig_decodes_before_permission :
  storedAllowListStatus exampleState exampleManagerAddress callerC =
    AllowListNoRole /\
  (SetFeeConfigGasCost exampleWriteGasCostPerSlot <= 180000)%N /\
  exampleSetFeeConfig (exampleContext exampleState (Some 42)) callerC [] []
    180000%N false =
    Some ((None, 0%N, Some (ErrInvalidInputLength 0)), exampleState) /\
  ~ (exists ret remainingGas s',
       exampleSetFeeConfig (exampleContext exampleState (Some 42)) callerC
         [] [] 180000%N false =
         Some ((ret, remainingGas, Some (ErrCannotChangeFee callerC)), s')).
Proof.
  split; [vm_compute; reflexivity|].
  split; [vm_compute; discriminate|].
  assert (E : exampleSetFeeConfig (exampleContext exampleState (Some 42))
                callerC [] [] 180000%N false =
              Some ((None, 0%N, Some (ErrInvalidInputLength 0)),
                    exampleState))
    by (vm_compute; reflexivity).
  split; [exact E|].
  intros (ret & remainingGas & s' & E'). rewrite E in E'. discriminate E'.
Qed.

Lemma setFeeConfig_write_protection_witness :
  exampleSetFeeConfig (exampleContext exampleState (Some 42)) callerB []
    exampleInput 200000%N true =
    Some ((None, (200000 - (8 + 1) * exampleWriteGasCostPerSlot)%N,
           Some ErrWriteProtection), exampleState).
Proof.
  apply (setFeeConfig_write_protection (S := AssocState)
           exampleManagerAddress exampleWriteGasCostPerSlot exampleVerify
           storedAllowListStatus exampleState (mkBlockContext (Some 42))
           callerB [] exampleInput 200000%N).
  vm_compute. discriminate.
Defined.

Lemma StoreFeeConfig_layout_witness :
  exists s',
    StoreFeeConfig exampleManagerAddress exampleVerify exampleState
      exampleFeeConfig (mkBlockContext (Some 42)) = Some (s', None) /\
    GetState s' exampleManagerAddress (x01 :: repeat x00 31) =
      BigToHashZ 8000000 /\
    GetState s' exampleManagerAddress (x08 :: repeat x00 31) =
      BigToHashZ 200000 /\
    GetState s' exampleManagerAddress (x6c :: x63 :: x61 :: repeat x00 29) =
      BigToHashZ 42.
Proof.
  destruct (StoreFeeConfig_layout (S := AssocState) exampleManagerAddress
              exampleVerify exampleState (mkBlockContext (Some 42))
              8000000 2 25000000000 15000000 36 0 1000000 200000 42)
    as (s' & Hs & H1 & _ & _ & _ & _ & _ & _ & H8 & Hn & _).
  - vm_compute. reflexivity.
  - reflexivity.
  - exists s'. repeat split; assumption.
Defined.

(** * Further properties of the codec *)

Lemma Uint64_nonneg (z : Z) : 0 <= z -> Uint64 z = z mod 2 ^ 64.
Proof. intros Hz. unfold Uint64. rewrite Z.abs_eq by exact Hz. reflexivity. Qed.

Lemma mod_word_mod_uint64 (z : Z) : (z mod 2 ^ 256) mod 2 ^ 64 = z mod 2 ^ 64.
Proof.
  apply Z.mod_mod_divide. exists (2 ^ 192). reflexivity.
Qed.

Lemma SetBytes_BigToHashZ (z : Z) :
  SetBytes (BigToHashZ z) = Z.abs z mod 2 ^ 256.
Proof. rewrite <- Big_unfold. apply Big_BigToHashZ. Qed.

(** An input of eight words, word by word. *)
Lemma input_words (input : bytes) :
  length input = feeConfigInputLen ->
  input =
    returnPackedHash input 0 ++ returnPackedHash input 1 ++
    returnPackedHash input 2 ++ returnPackedHash input 3 ++
    returnPackedHash input 4 ++ returnPackedHash input 5 ++
    returnPackedHash input 6 ++ returnPackedHash input 7.
Proof.
  intros Hl. pose proof (concat_returnPackedHash 8 input Hl) as E.
  cbn [seq map concat] in E. rewrite app_nil_r in E. symmetry. exact E.
Qed.

Lemma input_word_length (input : bytes) (k : nat) :
  length input = feeConfigInputLen -> (k < 8)%nat ->
  length (returnPackedHash input k) = HashLength.
Proof.
  intros Hl Hk. apply returnPackedHash_length. rewrite Hl.
  unfold feeConfigInputLen, numFeeConfigField, HashLength. lia.
Qed.

(** X1. Decoding then packing: every input of 256 bytes decodes, and
    packing the decoded record gives the input back with its second word
    replaced by the word of its low 64 bits; it gives the input itself when
    the second word is in the 64-bit range. *)
Theorem PackFeeConfig_UnpackFeeConfigInput (input : bytes) :
  length input = 256%nat ->
  exists feeConfig,
    UnpackFeeConfigInput input = Some (feeConfig, None) /\
    PackFeeConfig feeConfig =
      Some (returnPackedHash input 0 ++
            BigToHashZ (SetBytes (returnPackedHash input 1) mod 2 ^ 64) ++
            returnPackedHash input 2 ++ returnPackedHash input 3 ++
            returnPackedHash input 4 ++ returnPackedHash input 5 ++
            returnPackedHash input 6 ++ returnPackedHash input 7, None) /\
    (SetBytes (returnPackedHash input 1) < 2 ^ 64 ->
     PackFeeConfig feeConfig = Some (input, None)).
Proof.
  intros Hl. rewrite (UnpackFeeConfigInput_words input Hl).
  eexists; split; [reflexivity|].
  rewrite PackFeeConfig_words.
  rewrite !BigToHashZ_SetBytes by (apply input_word_length; [exact Hl|lia]).
  rewrite Uint64_nonneg by apply SetBytes_nonneg.
  split; [reflexivity|].
  intros Hrate.
  rewrite Z.mod_small
    by (split; [apply SetBytes_nonneg | exact Hrate]).
  rewrite BigToHashZ_SetBytes by (apply input_word_length; [exact Hl|lia]).
  rewrite <- (input_words input Hl). reflexivity.
Qed.

(** [exampleInput] decodes and packs back to itself. *)
Lemma PackFeeConfig_UnpackFeeConfigInput_witness :
  exists feeConfig,
    UnpackFeeConfigInput exampleInput = Some (feeConfig, None) /\
    PackFeeConfig feeConfig = Some (exampleInput, None).
Proof.
  destruct (PackFeeConfig_UnpackFeeConfigInput exampleInput)
    as (feeConfig & Hu & _ & Hp).
  - reflexivity.
  - exists feeConfig. split; [exact Hu|]. apply Hp. vm_compute. reflexivity.
Defined.

Lemma Some_inj_pair {A B : Type} (a a' : A) (b b' : B) :
  Some (a, b) = Some (a', b') -> a = a' /\ b = b'.
Proof. intros E. split; congruence. Qed.

(** X2. Packing panics exactly on a nil field; otherwise it returns 256
    bytes and never an error, whatever the values of the fields. *)
Theorem PackFeeConfig_nil_or_256 (r : FeeConfig) :
  (PackFeeConfig r = None <->
   GasLimit r = None \/ MinBaseFee r = None \/ TargetGas r = None \/
   BaseFeeChangeDenominator r = None \/ MinBlockGasCost r = None \/
   MaxBlockGasCost r = None \/ BlockGasCostStep r = None) /\
  (forall out err,
     PackFeeConfig r = Some (out, err) ->
     err = None /\ length out = 256%nat).
Proof.
  destruct r as [[g|] rate [b|] [t|] [d|] [mn|] [mx|] [st|]];
    cbn [GasLimit MinBaseFee TargetGas BaseFeeChangeDenominator
         MinBlockGasCost MaxBlockGasCost BlockGasCostStep];
    try (split;
         [ split; [intros _; tauto | intros _; reflexivity]
         | intros out err E; discriminate E ]).
  rewrite PackFeeConfig_words. split.
  - split; [discriminate|]. intros Hn.
    repeat (destruct Hn as [Hn|Hn]; [discriminate Hn|]). discriminate Hn.
  - intros out err E. apply Some_inj_pair in E. destruct E as [<- <-].
    split; [reflexivity|].
    rewrite !length_app, !BigToHashZ_length. reflexivity.
Qed.

(** X3. What packing keeps of a record: for any record without nil fields,
    unpacking its packing gives each field as its magnitude modulo [2^256]
    and the rate as its magnitude modulo [2^64]; a sign or a bit above the
    word is lost without an error. *)
Theorem UnpackFeeConfigInput_PackFeeConfig_normalises
    (g rate b t d mn mx st : Z) :
  exists packed,
    PackFeeConfig
      (mkFeeConfig (Some g) rate (Some b) (Some t) (Some d) (Some mn)
         (Some mx) (Some st)) = Some (packed, None) /\
    UnpackFeeConfigInput packed =
      Some (mkFeeConfig
              (Some (Z.abs g mod 2 ^ 256))
              (Z.abs rate mod 2 ^ 64)
              (Some (Z.abs b mod 2 ^ 256))
              (Some (Z.abs t mod 2 ^ 256))
              (Some (Z.abs d mod 2 ^ 256))
              (Some (Z.abs mn mod 2 ^ 256))
              (Some (Z.abs mx mod 2 ^ 256))
              (Some (Z.abs st mod 2 ^ 256)), None).
Proof.
  rewrite PackFeeConfig_words. eexists; split; [reflexivity|].
  destruct (packed_words (BigToHashZ g) (BigToHashZ rate) (BigToHashZ b)
              (BigToHashZ t) (BigToHashZ d) (BigToHashZ mn) (BigToHashZ mx)
              (BigToHashZ st))
    as (Hl & E0 & E1 & E2 & E3 & E4 & E5 & E6 & E7);
    try apply BigToHashZ_length.
  cbv zeta in Hl, E0, E1, E2, E3, E4, E5, E6, E7.
  rewrite (UnpackFeeConfigInput_words _ Hl).
  rewrite E0, E1, E2, E3, E4, E5, E6, E7.
  rewrite !SetBytes_BigToHashZ.
  rewrite Uint64_nonneg by (apply Z.mod_pos_bound; lia).
  rewrite mod_word_mod_uint64. reflexivity.
Qed.

(** Packing with the selector: the selector, then the eight words. *)
Lemma PackSetFeeConfig_words (selector : bytes) (g r b t d mn mx st : Z) :
  PackSetFeeConfig selector
    (mkFeeConfig (Some g) r (Some b) (Some t) (Some d) (Some mn) (Some mx)
       (Some st)) =
    Some (selector ++
          BigToHashZ g ++ BigToHashZ r ++ BigToHashZ b ++ BigToHashZ t ++
          BigToHashZ d ++ BigToHashZ mn ++ BigToHashZ mx ++ BigToHashZ st,
          None).
Proof.
  unfold PackSetFeeConfig, packFeeConfigHelper, packOrderedHashesWithSelector.
  cbn [BigToHash GasLimit TargetBlockRate MinBaseFee TargetGas
       BaseFeeChangeDenominator MinBlockGasCost MaxBlockGasCost
       BlockGasCostStep concat].
  rewrite app_nil_r. reflexivity.
Qed.

(** X4. The selector: [PackSetFeeConfig] is the selector followed by
    [PackFeeConfig]. [UnpackFeeConfigInput] gives the record back once the
    selector is cut off, and refuses the bytes with a selector of four bytes
    still on them: 260 bytes are not 256. *)
Theorem UnpackFeeConfigInput_PackSetFeeConfig (selector : bytes)
    (r : FeeConfig) :
  representable r ->
  exists packed,
    PackFeeConfig r = Some (packed, None) /\
    PackSetFeeConfig selector r = Some (selector ++ packed, None) /\
    UnpackFeeConfigInput (skipn (length selector) (selector ++ packed)) =
      Some (r, None) /\
    (length selector = 4%nat ->
     UnpackFeeConfigInput (selector ++ packed) =
       Some (mkFeeConfig None 0 None None None None None None,
             Some (ErrInvalidInputLength 260))).
Proof.
  intros Hr.
  destruct r as [[g|] rate [b|] [t|] [d|] [mn|] [mx|] [st|]];
    try (unfold representable in Hr; cbn [inWord GasLimit TargetBlockRate
           MinBaseFee TargetGas BaseFeeChangeDenominator MinBlockGasCost
           MaxBlockGasCost BlockGasCostStep] in Hr; tauto).
  rewrite PackFeeConfig_words, PackSetFeeConfig_words.
  eexists; split; [reflexivity|]. split; [reflexivity|].
  destruct (wordsFeeConfig_packed _ _ _ _ _ _ _ _ Hr) as [Hl Hw].
  cbv zeta in Hl, Hw. split.
  - rewrite skipn_app, skipn_all, Nat.sub_diag. cbn [skipn app].
    rewrite (UnpackFeeConfigInput_words _ Hl).
    fold (wordsFeeConfig
            (BigToHashZ g ++ BigToHashZ rate ++ BigToHashZ b ++
             BigToHashZ t ++ BigToHashZ d ++ BigToHashZ mn ++
             BigToHashZ mx ++ BigToHashZ st)).
    rewrite Hw. reflexivity.
  - intros Hsel.
    assert (Hlen : length
                     (selector ++
                      BigToHashZ g ++ BigToHashZ rate ++ BigToHashZ b ++
                      BigToHashZ t ++ BigToHashZ d ++ BigToHashZ mn ++
                      BigToHashZ mx ++ BigToHashZ st) = 260%nat)
      by (rewrite length_app, Hl, Hsel; reflexivity).
    rewrite UnpackFeeConfigInput_short by (rewrite Hlen; discriminate).
    rewrite Hlen. reflexivity.
Qed.

(** The example record behind the selector [0x8f 0x10 0xb5 0x86]. *)
Lemma UnpackFeeConfigInput_PackSetFeeConfig_witness :
  PackSetFeeConfig [x8f; x10; xb5; x86] exampleFeeConfig =
    Some ([x8f; x10; xb5; x86] ++ exampleInput, None) /\
  UnpackFeeConfigInput (skipn 4 ([x8f; x10; xb5; x86] ++ exampleInput)) =
    Some (exampleFeeConfig, None) /\
  UnpackFeeConfigInput ([x8f; x10; xb5; x86] ++ exampleInput) =
    Some (emptyFeeConfig, Some (ErrInvalidInputLength 260)).
Proof.
  destruct (UnpackFeeConfigInput_PackSetFeeConfig [x8f; x10; xb5; x86]
              exampleFeeConfig)
    as (packed & Hp & Hs & Hu & Hbad).
  - unfold representable, exampleFeeConfig; simpl; lia.
  - assert (E : packed = exampleInput).
    { assert (Hp' : PackFeeConfig exampleFeeConfig =
                    Some (exampleInput, None))
        by (vm_compute; reflexivity).
      rewrite Hp' in Hp. apply Some_inj_pair in Hp. symmetry. apply Hp. }
    subst packed. split; [exact Hs|]. split; [exact Hu|].
    apply Hbad. reflexivity.
Defined.

(** * Further properties of the storage and of the handlers *)

Lemma noNilField_fields (r : FeeConfig) :
  noNilField r ->
  exists g b t d mn mx st,
    r = mkFeeConfig (Some g) (TargetBlockRate r) (Some b) (Some t) (Some d)
          (Some mn) (Some mx) (Some st).
Proof.
  destruct r as [[g|] rate [b|] [t|] [d|] [mn|] [mx|] [st|]];
    unfold noNilField;
    cbn [GasLimit TargetBlockRate MinBaseFee TargetGas
         BaseFeeChangeDenominator MinBlockGasCost MaxBlockGasCost
         BlockGasCostStep];
    intros Hn; try (exfalso; tauto).
  do 7 eexists. reflexivity.
Qed.

Lemma representable_noNilField (r : FeeConfig) :
  representable r -> noNilField r.
Proof.
  destruct r as [[g|] rate [b|] [t|] [d|] [mn|] [mx|] [st|]];
    unfold representable, noNilField;
    cbn [inWord GasLimit TargetBlockRate MinBaseFee TargetGas
         BaseFeeChangeDenominator MinBlockGasCost MaxBlockGasCost
         BlockGasCostStep];
    intros Hr; try (exfalso; tauto).
  repeat split; discriminate.
Qed.

(** A slot key derived from an address of 20 bytes starts with a zero byte:
    it is none of the nine keys of the fee config. *)
Lemma addressSlotKey_not_fee_key (holder : Address) :
  length holder = 20%nat -> ~ In (addressSlotKey holder) feeConfigSlotKeys.
Proof.
  intros Hl. unfold addressSlotKey. rewrite Hl.
  change (repeat x00 (HashLength - 20)) with
    (x00 :: repeat x00 11).
  rewrite feeConfigSlotKeys_bytes. cbn [app In].
  intros Hin.
  repeat (destruct Hin as [Hin|Hin]; [discriminate Hin|]).
  exact Hin.
Qed.

Section StorageProperties.

Context {S : Type} `{StateDB S}.
Variable FeeConfigManagerAddress : Address.
Variable Verify : FeeConfig -> option error.

(** The loop of [StoreFeeConfig] panics on a record with a nil field. *)
Lemma storeField_loop_nil (s : S) (r : FeeConfig) :
  ~ noNilField r ->
  forFieldKeys (storeField FeeConfigManagerAddress r) s = None.
Proof.
  destruct r as [[g|] rate [b|] [t|] [d|] [mn|] [mx|] [st|]];
    intros Hn; try reflexivity.
  exfalso. apply Hn. unfold noNilField.
  cbn [GasLimit MinBaseFee TargetGas BaseFeeChangeDenominator
       MinBlockGasCost MaxBlockGasCost BlockGasCostStep].
  repeat split; discriminate.
Qed.

(** The eight field writes leave every other slot as it was. *)
Lemma storedFields_only_frame (s : S) (h1 h2 h3 h4 h5 h6 h7 h8 : Hash)
    (a : Address) (k : Hash) :
  a <> FeeConfigManagerAddress \/ ~ In k feeConfigSlotKeys ->
  GetState (storedFields FeeConfigManagerAddress s h1 h2 h3 h4 h5 h6 h7 h8)
    a k = GetState s a k.
Proof.
  intros Hk. unfold storedFields.
  repeat (rewrite GetState_SetState_frame;
          [| destruct Hk as [Ha|Hk]; [left; exact Ha|];
             right; intros E; apply Hk; rewrite E;
             vm_compute; tauto ]).
  reflexivity.
Qed.

(** What [StoreFeeConfig] returns, whatever the record. *)
Lemma StoreFeeConfig_outcome (s s' : S) (r : FeeConfig)
    (blockContext : BlockContext) (err : option error) :
  StoreFeeConfig FeeConfigManagerAddress Verify s r blockContext =
    Some (s', err) ->
  s' = s \/
  exists h1 h2 h3 h4 h5 h6 h7 h8,
    s' = storedFields FeeConfigManagerAddress s h1 h2 h3 h4 h5 h6 h7 h8 \/
    exists hn,
      s' = SetState
             (storedFields FeeConfigManagerAddress s h1 h2 h3 h4 h5 h6 h7 h8)
             FeeConfigManagerAddress feeConfigLastChangedAtKey hn.
Proof.
  destruct r as [[g|] rate [b|] [t|] [d|] [mn|] [mx|] [st|]];
    try (unfold StoreFeeConfig;
         destruct (Verify _);
         [ intros E; apply Some_inj_pair in E; left; symmetry; apply E
         | rewrite storeField_loop_nil
             by (unfold noNilField;
                 cbn [GasLimit MinBaseFee TargetGas BaseFeeChangeDenominator
                      MinBlockGasCost MaxBlockGasCost BlockGasCostStep];
                 intros Hn; tauto);
           discriminate ]).
  rewrite StoreFeeConfig_nonnil. cbv zeta.
  destruct (Verify _);
    [intros E; apply Some_inj_pair in E; left; symmetry; apply E|].
  destruct (Number blockContext);
    intros E; apply Some_inj_pair in E; destruct E as [<- _]; right;
    do 8 eexists; [right; eexists; reflexivity | left; reflexivity].
Qed.

(** X5. Storage round trip: after [StoreFeeConfig] of a record that fits
    its words and passes the policy, at block number [n],
    [GetStoredFeeConfig] returns the record and [GetFeeConfigLastChangedAt]
    the magnitude of [n] modulo [2^256], which is [n] when [n] fits a
    word. *)
Theorem GetStoredFeeConfig_StoreFeeConfig (s : S) (r : FeeConfig)
    (blockContext : BlockContext) (n : Z) :
  representable r ->
  Verify r = None ->
  Number blockContext = Some n ->
  exists s',
    StoreFeeConfig FeeConfigManagerAddress Verify s r blockContext =
      Some (s', None) /\
    GetStoredFeeConfig FeeConfigManagerAddress s' = Some r /\
    GetFeeConfigLastChangedAt FeeConfigManagerAddress s' =
      Some (Z.abs n mod 2 ^ 256) /\
    (0 <= n < 2 ^ 256 ->
     GetFeeConfigLastChangedAt FeeConfigManagerAddress s' = Some n).
Proof.
  intros Hrep Hver Hn.
  destruct r as [[g|] rate [b|] [t|] [d|] [mn|] [mx|] [st|]];
    try (unfold representable in Hrep; cbn [inWord GasLimit TargetBlockRate
           MinBaseFee TargetGas BaseFeeChangeDenominator MinBlockGasCost
           MaxBlockGasCost BlockGasCostStep] in Hrep; tauto).
  rewrite StoreFeeConfig_nonnil. cbv zeta. rewrite Hver, Hn.
  eexists; split; [reflexivity|].
  pose proof (storedFields_read FeeConfigManagerAddress s
                (BigToHashZ g) (BigToHashZ rate) (BigToHashZ b)
                (BigToHashZ t) (BigToHashZ d) (BigToHashZ mn)
                (BigToHashZ mx) (BigToHashZ st) (BigToHashZ n)) as Hread.
  cbv zeta in Hread.
  destruct Hread as (R1 & R2 & R3 & R4 & R5 & R6 & R7 & R8 & R9).
  unfold representable in Hrep.
  cbn [inWord GasLimit TargetBlockRate MinBaseFee TargetGas
       BaseFeeChangeDenominator MinBlockGasCost MaxBlockGasCost
       BlockGasCostStep] in Hrep.
  destruct Hrep as (Hg & Hrate & Hb & Ht & Hd & Hmn & Hmx & Hst).
  split; [|split].
  - rewrite GetStoredFeeConfig_slots.
    rewrite R1, R2, R3, R4, R5, R6, R7, R8.
    rewrite !Big_BigToHashZ_small by lia.
    rewrite Uint64_small by lia. reflexivity.
  - unfold GetFeeConfigLastChangedAt. rewrite R9, Big_BigToHashZ.
    reflexivity.
  - intros Hrange. unfold GetFeeConfigLastChangedAt.
    rewrite R9, Big_BigToHashZ_small by exact Hrange. reflexivity.
Qed.

(** X6. [StoreFeeConfig] touches the nine slots of the fee config manager
    and nothing else, whatever it returns: a slot of another contract, or a
    slot of the manager under another key, reads after the call as before. *)
Theorem StoreFeeConfig_frame (s s' : S) (r : FeeConfig)
    (blockContext : BlockContext) (err : option error)
    (a : Address) (k : Hash) :
  StoreFeeConfig FeeConfigManagerAddress Verify s r blockContext =
    Some (s', err) ->
  a <> FeeConfigManagerAddress \/
  ~ In k [ x01 :: repeat x00 31; x02 :: repeat x00 31;
           x03 :: repeat x00 31; x04 :: repeat x00 31;
           x05 :: repeat x00 31; x06 :: repeat x00 31;
           x07 :: repeat x00 31; x08 :: repeat x00 31;
           x6c :: x63 :: x61 :: repeat x00 29 ] ->
  GetState s' a k = GetState s a k.
Proof.
  intros Hstore Hk. rewrite <- feeConfigSlotKeys_bytes in Hk.
  apply StoreFeeConfig_outcome in Hstore.
  destruct Hstore as [-> | (h1 & h2 & h3 & h4 & h5 & h6 & h7 & h8 & Hs)];
    [reflexivity|].
  destruct Hs as [-> | (hn & ->)].
  - apply storedFields_only_frame. exact Hk.
  - apply storedFields_frame. exact Hk.
Qed.

End StorageProperties.

Lemma feeConfigSlotKeys_keys :
  feeConfigSlotKeys =
    [ fieldSlotKey 1; fieldSlotKey 2; fieldSlotKey 3; fieldSlotKey 4;
      fieldSlotKey 5; fieldSlotKey 6; fieldSlotKey 7; fieldSlotKey 8;
      feeConfigLastChangedAtKey ].
Proof. reflexivity. Qed.

Section HandlerFurtherProperties.

Context {S : Type} `{StateDB S}.
Variable FeeConfigManagerAddress : Address.
Variables writeGasCostPerSlot readGasCostPerSlot : N.
Variable Verify : FeeConfig -> option error.
Variable getAllowListStatus : S -> Address -> Address -> AllowListRole.

Local Abbreviation setCost := (SetFeeConfigGasCost writeGasCostPerSlot).
Local Abbreviation getCost := (GetFeeConfigGasCost readGasCostPerSlot).
Local Abbreviation lastCost := (GetLastChangedAtGasCost readGasCostPerSlot).
Local Abbreviation set_handler :=
  (setFeeConfig FeeConfigManagerAddress writeGasCostPerSlot Verify
     getAllowListStatus).
Local Abbreviation get_handler :=
  (getFeeConfig FeeConfigManagerAddress readGasCostPerSlot).
Local Abbreviation last_handler :=
  (getFeeConfigLastChangedAt FeeConfigManagerAddress readGasCostPerSlot).
Local Abbreviation store := (StoreFeeConfig FeeConfigManagerAddress Verify).

(** Two states with the same nine words after the nine writes read the
    same everywhere when they read the same outside the nine slots. *)
Lemma storedFields_pointwise (s1 s2 : S)
    (h1 h2 h3 h4 h5 h6 h7 h8 hn : Hash) :
  (forall a k,
     a <> FeeConfigManagerAddress \/ ~ In k feeConfigSlotKeys ->
     GetState s1 a k = GetState s2 a k) ->
  forall a k,
    GetState
      (SetState
         (storedFields FeeConfigManagerAddress s1 h1 h2 h3 h4 h5 h6 h7 h8)
         FeeConfigManagerAddress feeConfigLastChangedAtKey hn) a k =
    GetState
      (SetState
         (storedFields FeeConfigManagerAddress s2 h1 h2 h3 h4 h5 h6 h7 h8)
         FeeConfigManagerAddress feeConfigLastChangedAtKey hn) a k.
Proof.
  intros Hout a k.
  destruct (bytes_eq_dec a FeeConfigManagerAddress) as [->|Ha].
  - destruct (in_dec bytes_eq_dec k feeConfigSlotKeys) as [Hin|Hin].
    + pose proof (storedFields_read FeeConfigManagerAddress s1
                    h1 h2 h3 h4 h5 h6 h7 h8 hn) as Ra.
      pose proof (storedFields_read FeeConfigManagerAddress s2
                    h1 h2 h3 h4 h5 h6 h7 h8 hn) as Rb.
      cbv zeta in Ra, Rb.
      destruct Ra as (A1 & A2 & A3 & A4 & A5 & A6 & A7 & A8 & A9).
      destruct Rb as (B1 & B2 & B3 & B4 & B5 & B6 & B7 & B8 & B9).
      rewrite feeConfigSlotKeys_keys in Hin. cbn [In] in Hin.
      destruct Hin as [<-|[<-|[<-|[<-|[<-|[<-|[<-|[<-|[<-|[]]]]]]]]]];
        congruence.
    + rewrite !storedFields_frame by (right; exact Hin).
      apply Hout. right; exact Hin.
  - rewrite !storedFields_frame by (left; exact Ha).
    apply Hout. left; exact Ha.
Qed.

(** X7. The later [StoreFeeConfig] wins: storing a second record after a
    first one leaves every slot of every contract as storing the second
    record alone would. *)
Theorem StoreFeeConfig_overwrites (s : S) (r1 r2 : FeeConfig)
    (blockContext1 blockContext2 : BlockContext) (n1 n2 : Z) :
  noNilField r1 -> noNilField r2 ->
  Verify r1 = None -> Verify r2 = None ->
  Number blockContext1 = Some n1 -> Number blockContext2 = Some n2 ->
  exists s1 s12 s2,
    store s r1 blockContext1 = Some (s1, None) /\
    store s1 r2 blockContext2 = Some (s12, None) /\
    store s r2 blockContext2 = Some (s2, None) /\
    forall a k, GetState s12 a k = GetState s2 a k.
Proof.
  intros Hnil1 Hnil2 Hv1 Hv2 Hn1 Hn2.
  destruct (noNilField_fields r1 Hnil1)
    as (g1 & b1 & t1 & d1 & mn1 & mx1 & st1 & E1).
  destruct (noNilField_fields r2 Hnil2)
    as (g2 & b2 & t2 & d2 & mn2 & mx2 & st2 & E2).
  generalize dependent (TargetBlockRate r1). intros rate1 E1. subst r1.
  generalize dependent (TargetBlockRate r2). intros rate2 E2. subst r2.
  do 3 eexists.
  rewrite !StoreFeeConfig_nonnil. cbv zeta. rewrite Hv1, Hv2, Hn1, Hn2.
  split; [reflexivity|]. split; [reflexivity|]. split; [reflexivity|].
  apply storedFields_pointwise.
  intros a k Hk. apply storedFields_frame. exact Hk.
Qed.

(** X8. [setFeeConfig] keeps out of the allow list: whatever the call and
    its outcome, the slot derived from an address of 20 bytes, where the
    role of that address is kept, holds after the call what it held before,
    and so does every slot of every other contract. *)
Theorem setFeeConfig_keeps_roles (s : S) (blockContext : BlockContext)
    (caller addr : Address) (input : bytes) (suppliedGas : N)
    (readOnly : bool) :
  exists result s',
    set_handler (mkAccessibleState s blockContext) caller addr input
      suppliedGas readOnly = Some (result, s') /\
    (forall holder,
       length holder = 20%nat ->
       GetState s' FeeConfigManagerAddress
         (repeat x00 12 ++ holder) =
       GetState s FeeConfigManagerAddress (repeat x00 12 ++ holder)) /\
    (forall a k,
       a <> FeeConfigManagerAddress -> GetState s' a k = GetState s a k).
Proof.
  assert (Hkey : forall holder, length holder = 20%nat ->
                 ~ In (repeat x00 12 ++ holder) feeConfigSlotKeys).
  { intros holder Hl. pose proof (addressSlotKey_not_fee_key holder Hl) as Hn.
    unfold addressSlotKey in Hn. rewrite Hl in Hn. exact Hn. }
  rewrite setFeeConfig_cases.
  destruct (suppliedGas <? setCost)%N;
    [do 2 eexists; split; [reflexivity|]; split; reflexivity|].
  destruct readOnly;
    [do 2 eexists; split; [reflexivity|]; split; reflexivity|].
  destruct (negb (length input =? feeConfigInputLen)%nat);
    [do 2 eexists; split; [reflexivity|]; split; reflexivity|].
  destruct (negb (IsEnabled _));
    [do 2 eexists; split; [reflexivity|]; split; reflexivity|].
  destruct (Verify (wordsFeeConfig input));
    [do 2 eexists; split; [reflexivity|]; split; reflexivity|].
  destruct (Number blockContext);
    do 2 eexists; (split; [reflexivity|]); unfold storedWords; split.
  - intros holder Hl. apply storedFields_frame. right. apply Hkey, Hl.
  - intros a k Ha. apply storedFields_frame. left; exact Ha.
  - intros holder Hl. apply storedFields_only_frame. right. apply Hkey, Hl.
  - intros a k Ha. apply storedFields_only_frame. left; exact Ha.
Qed.

(** X9. The size of the getters' outputs: with enough gas [getFeeConfig]
    returns exactly 256 bytes and [getFeeConfigLastChangedAt] exactly 32,
    whatever the state holds in the slots. *)
Theorem getters_output_length (s : S) (blockContext : BlockContext)
    (caller addr : Address) (input : bytes) (gas1 gas2 : N)
    (readOnly : bool) :
  (getCost <= gas1)%N ->
  (lastCost <= gas2)%N ->
  (exists out,
     get_handler (mkAccessibleState s blockContext) caller addr input gas1
       readOnly = Some ((Some out, (gas1 - getCost)%N, None), s) /\
     length out = 256%nat) /\
  (exists out,
     last_handler (mkAccessibleState s blockContext) caller addr input gas2
       readOnly = Some ((Some out, (gas2 - lastCost)%N, None), s) /\
     length out = 32%nat).
Proof.
  intros Hg1 Hg2.
  rewrite getFeeConfig_cases, getFeeConfigLastChangedAt_cases.
  destruct (N.ltb_spec gas1 getCost); [lia|].
  destruct (N.ltb_spec gas2 lastCost); [lia|].
  cbv beta zeta. split; eexists; (split; [reflexivity|]).
  - rewrite !length_app, !BigToHashZ_length. reflexivity.
  - apply BigToHashZ_length.
Qed.

(** X10. The output of [getFeeConfig] decodes to the stored record: when the
    eight field slots hold words of 32 bytes, [UnpackFeeConfigInput] of the
    bytes [getFeeConfig] returns is what [GetStoredFeeConfig] returns. *)
Theorem UnpackFeeConfigInput_getFeeConfig (s : S)
    (blockContext : BlockContext) (caller addr : Address) (input : bytes)
    (suppliedGas : N) (readOnly : bool) :
  (forall i, In i [1; 2; 3; 4; 5; 6; 7; 8]%nat ->
     length (GetState s FeeConfigManagerAddress (fieldSlotKey i)) = 32%nat) ->
  (getCost <= suppliedGas)%N ->
  exists out feeConfig,
    get_handler (mkAccessibleState s blockContext) caller addr input
      suppliedGas readOnly =
      Some ((Some out, (suppliedGas - getCost)%N, None), s) /\
    GetStoredFeeConfig FeeConfigManagerAddress s = Some feeConfig /\
    UnpackFeeConfigInput out = Some (feeConfig, None).
Proof.
  clear writeGasCostPerSlot Verify getAllowListStatus.
  intros Hlen Hg.
  rewrite getFeeConfig_cases, GetStoredFeeConfig_slots.
  destruct (N.ltb_spec suppliedGas getCost); [lia|].
  cbv beta zeta. do 2 eexists. split; [reflexivity|]. split; [reflexivity|].
  assert (L1 := Hlen 1%nat ltac:(cbn [In]; tauto)).
  assert (L2 := Hlen 2%nat ltac:(cbn [In]; tauto)).
  assert (L3 := Hlen 3%nat ltac:(cbn [In]; tauto)).
  assert (L4 := Hlen 4%nat ltac:(cbn [In]; tauto)).
  assert (L5 := Hlen 5%nat ltac:(cbn [In]; tauto)).
  assert (L6 := Hlen 6%nat ltac:(cbn [In]; tauto)).
  assert (L7 := Hlen 7%nat ltac:(cbn [In]; tauto)).
  assert (L8 := Hlen 8%nat ltac:(cbn [In]; tauto)).
  clear Hlen.
  set (w1 := GetState s FeeConfigManagerAddress (fieldSlotKey 1)) in *.
  set (w2 := GetState s FeeConfigManagerAddress (fieldSlotKey 2)) in *.
  set (w3 := GetState s FeeConfigManagerAddress (fieldSlotKey 3)) in *.
  set (w4 := GetState s FeeConfigManagerAddress (fieldSlotKey 4)) in *.
  set (w5 := GetState s FeeConfigManagerAddress (fieldSlotKey 5)) in *.
  set (w6 := GetState s FeeConfigManagerAddress (fieldSlotKey 6)) in *.
  set (w7 := GetState s FeeConfigManagerAddress (fieldSlotKey 7)) in *.
  set (w8 := GetState s FeeConfigManagerAddress (fieldSlotKey 8)) in *.
  clearbody w1 w2 w3 w4 w5 w6 w7 w8.
  rewrite !BigToHashZ_Big by assumption.
  destruct (packed_words w1 (BigToHashZ (Uint64 (Big w2)))
              w3 w4 w5 w6 w7 w8)
    as (Hl & E0 & E1 & E2 & E3 & E4 & E5 & E6 & E7);
    try apply BigToHashZ_length; try assumption.
  cbv zeta in Hl, E0, E1, E2, E3, E4, E5, E6, E7.
  rewrite (UnpackFeeConfigInput_words _ Hl).
  rewrite E0, E1, E2, E3, E4, E5, E6, E7.
  rewrite SetBytes_BigToHashZ_small
    by (pose proof (Uint64_range (Big w2)); lia).
  rewrite (Uint64_small (Uint64 _)) by apply Uint64_range.
  unfold Big. reflexivity.
Qed.

(** X11. The getters are open: their result depends on the state and the
    supplied gas only, not on the caller, the called address, the input
    bytes, the read-only flag or the block context. No role is asked for. *)
Theorem getters_ignore_caller_and_input (s : S)
    (blockContext blockContext' : BlockContext)
    (caller caller' addr addr' : Address) (input input' : bytes)
    (suppliedGas : N) (readOnly readOnly' : bool) :
  get_handler (mkAccessibleState s blockContext) caller addr input
    suppliedGas readOnly =
  get_handler (mkAccessibleState s blockContext') caller' addr' input'
    suppliedGas readOnly' /\
  last_handler (mkAccessibleState s blockContext) caller addr input
    suppliedGas readOnly =
  last_handler (mkAccessibleState s blockContext') caller' addr' input'
    suppliedGas readOnly'.
Proof.
  rewrite !getFeeConfig_cases, !getFeeConfigLastChangedAt_cases.
  split; reflexivity.
Qed.

(** X12. The policy is asked before any write: when an enabled caller sends
    256 bytes with enough gas outside a read-only context and the decoded
    record is refused by [Verify], [setFeeConfig] returns the error of
    [Verify] with the supplied gas minus the cost, and the state it was
    given. *)
Theorem setFeeConfig_rejected_by_policy (s : S)
    (blockContext : BlockContext) (caller addr : Address) (input : bytes)
    (suppliedGas : N) (feeConfig : FeeConfig) (e : error) :
  IsEnabled (getAllowListStatus s FeeConfigManagerAddress caller) = true ->
  (setCost <= suppliedGas)%N ->
  UnpackFeeConfigInput input = Some (feeConfig, None) ->
  Verify feeConfig = Some e ->
  set_handler (mkAccessibleState s blockContext) caller addr input
    suppliedGas false =
    Some ((None, (suppliedGas - setCost)%N, Some e), s).
Proof.
  intros Hrole Hg Hun Hver. rewrite setFeeConfig_cases, Hrole.
  destruct (N.ltb_spec suppliedGas setCost); [lia|].
  destruct (length input =? feeConfigInputLen)%nat eqn:Hl; cbn [negb].
  - apply Nat.eqb_eq in Hl.
    rewrite (UnpackFeeConfigInput_words input Hl) in Hun.
    fold (wordsFeeConfig input) in Hun.
    apply Some_inj_pair in Hun. destruct Hun as [Hfc _].
    rewrite Hfc, Hver. reflexivity.
  - apply Nat.eqb_neq in Hl.
    rewrite (UnpackFeeConfigInput_short input Hl) in Hun.
    apply Some_inj_pair in Hun. destruct Hun as [_ Hno]. discriminate Hno.
Qed.

(** X13. Set, then get, for any accepted input: when an enabled caller sends
    any 256 bytes whose decoded record passes [Verify], with enough gas,
    outside a read-only context, at a block with a number, the call
    succeeds; the record read from the state after it is the decoded one,
    and [getFeeConfig] returns its packing, that is the input with the
    second word cut to 64 bits. *)
Theorem getFeeConfig_setFeeConfig (s : S) (blockContext : BlockContext)
    (caller addr : Address) (input : bytes) (suppliedGas : N)
    (feeConfig : FeeConfig) (n : Z) :
  IsEnabled (getAllowListStatus s FeeConfigManagerAddress caller) = true ->
  (setCost <= suppliedGas)%N ->
  UnpackFeeConfigInput input = Some (feeConfig, None) ->
  Verify feeConfig = None ->
  Number blockContext = Some n ->
  exists s' out,
    set_handler (mkAccessibleState s blockContext) caller addr input
      suppliedGas false =
      Some ((Some [], (suppliedGas - setCost)%N, None), s') /\
    GetStoredFeeConfig FeeConfigManagerAddress s' = Some feeConfig /\
    PackFeeConfig feeConfig = Some (out, None) /\
    out =
      returnPackedHash input 0 ++
      BigToHashZ (SetBytes (returnPackedHash input 1) mod 2 ^ 64) ++
      returnPackedHash input 2 ++ returnPackedHash input 3 ++
      returnPackedHash input 4 ++ returnPackedHash input 5 ++
      returnPackedHash input 6 ++ returnPackedHash input 7 /\
    forall blockContext' caller' addr' input' suppliedGas' readOnly',
      (getCost <= suppliedGas')%N ->
      get_handler (mkAccessibleState s' blockContext') caller' addr' input'
        suppliedGas' readOnly' =
        Some ((Some out, (suppliedGas' - getCost)%N, None), s').
Proof.
  intros Hrole Hg Hun Hver Hn.
  assert (Hl : length input = feeConfigInputLen).
  { destruct (Nat.eq_dec (length input) feeConfigInputLen) as [Hl|Hl];
      [exact Hl|].
    rewrite (UnpackFeeConfigInput_short input Hl) in Hun.
    apply Some_inj_pair in Hun. destruct Hun as [_ Hno]. discriminate Hno. }
  rewrite (UnpackFeeConfigInput_words input Hl) in Hun.
  apply Some_inj_pair in Hun. destruct Hun as [Hfc _]. subst feeConfig.
  fold (wordsFeeConfig input) in Hver.
  pose proof (storedFields_read FeeConfigManagerAddress s
                (BigToHashZ (SetBytes (returnPackedHash input 0)))
                (BigToHashZ (Uint64 (SetBytes (returnPackedHash input 1))))
                (BigToHashZ (SetBytes (returnPackedHash input 2)))
                (BigToHashZ (SetBytes (returnPackedHash input 3)))
                (BigToHashZ (SetBytes (returnPackedHash input 4)))
                (BigToHashZ (SetBytes (returnPackedHash input 5)))
                (BigToHashZ (SetBytes (returnPackedHash input 6)))
                (BigToHashZ (SetBytes (returnPackedHash input 7)))
                (BigToHashZ n)) as Hread.
  cbv zeta in Hread. fold (storedWords FeeConfigManagerAddress s input) in Hread.
  destruct Hread as (R1 & R2 & R3 & R4 & R5 & R6 & R7 & R8 & R9).
  assert (Hw : forall k, (k < 8)%nat ->
               length (returnPackedHash input k) = HashLength)
    by (intros k Hk; apply input_word_length; assumption).
  assert (Hstored :
            GetStoredFeeConfig FeeConfigManagerAddress
              (SetState (storedWords FeeConfigManagerAddress s input)
                 FeeConfigManagerAddress feeConfigLastChangedAtKey
                 (BigToHashZ n)) =
            Some (wordsFeeConfig input)).
  { rewrite GetStoredFeeConfig_slots.
    rewrite R1, R2, R3, R4, R5, R6, R7, R8.
    rewrite !BigToHashZ_SetBytes by (apply Hw; lia).
    rewrite Big_BigToHashZ_small
      by (pose proof (Uint64_range (SetBytes (returnPackedHash input 1)));
          lia).
    rewrite (Uint64_small (Uint64 _)) by apply Uint64_range.
    rewrite !Big_unfold. reflexivity. }
  do 2 eexists. split; [|split; [|split; [|split]]].
  - rewrite setFeeConfig_cases, Hrole, Hl, Nat.eqb_refl, Hver, Hn.
    destruct (N.ltb_spec suppliedGas setCost); [lia|]. reflexivity.
  - exact Hstored.
  - unfold wordsFeeConfig. rewrite PackFeeConfig_words.
    rewrite !BigToHashZ_SetBytes by (apply Hw; lia).
    rewrite Uint64_nonneg by apply SetBytes_nonneg. reflexivity.
  - reflexivity.
  - intros blockContext' caller' addr' input' suppliedGas' readOnly' Hg'.
    rewrite getFeeConfig_cases.
    destruct (N.ltb_spec suppliedGas' getCost); [lia|].
    cbv beta zeta. rewrite R1, R2, R3, R4, R5, R6, R7, R8.
    repeat match goal with
           | |- context [Big (BigToHashZ (SetBytes ?w))] =>
               rewrite (BigToHashZ_Big (BigToHashZ (SetBytes w)))
                 by apply BigToHashZ_length
           end.
    rewrite !BigToHashZ_SetBytes by (apply Hw; lia).
    rewrite Big_BigToHashZ_small
      by (pose proof (Uint64_range (SetBytes (returnPackedHash input 1)));
          lia).
    rewrite (Uint64_small (Uint64 _)) by apply Uint64_range.
    rewrite Uint64_nonneg by apply SetBytes_nonneg. reflexivity.
Qed.

End HandlerFurtherProperties.

(** * Properties of the upgrade configuration *)

Section LifecycleProperties.

Context {S : Type} `{StateDB S}.
Variable FeeConfigManagerAddress : Address.
Variable Verify : FeeConfig -> option error.
Variable AllowListConfig_Verify : AllowListConfig -> option error.
Variable AllowListConfig_Configure :
  AllowListConfig -> S -> Address -> S * option error.

Local Abbreviation verify_config :=
  (FeeConfigManagerConfig_Verify Verify AllowListConfig_Verify).
Local Abbreviation configure :=
  (Configure FeeConfigManagerAddress Verify AllowListConfig_Configure).

(** X14. [Verify] before [Configure]: a configuration that [Verify] accepts
    and that carries an initial fee config without nil fields is configured,
    at a block with a number, without a fee-config error: the initial
    record is stored, whatever the chain config holds, and what [Configure]
    returns is what the allow-list configuration returns on the state after
    the store. *)
Theorem Configure_after_Verify (c : FeeConfigManagerConfig)
    (chainConfig : ChainConfig) (s : S) (blockContext : BlockContext)
    (initial : FeeConfig) (n : Z) :
  verify_config c = None ->
  InitialFeeConfig c = Some initial ->
  noNilField initial ->
  Number blockContext = Some n ->
  exists s1,
    StoreFeeConfig FeeConfigManagerAddress Verify s initial blockContext =
      Some (s1, None) /\
    configure c chainConfig s blockContext =
      Some (fst (AllowListConfig_Configure (allowListConfig c) s1
                   FeeConfigManagerAddress),
            option_map Unwrapped
              (snd (AllowListConfig_Configure (allowListConfig c) s1
                      FeeConfigManagerAddress))).
Proof.
  intros Hv Hi Hnil Hn. unfold FeeConfigManagerConfig_Verify in Hv.
  rewrite Hi in Hv.
  destruct (AllowListConfig_Verify (allowListConfig c)); [discriminate|].
  destruct (noNilField_fields initial Hnil)
    as (g & b & t & d & mn & mx & st & E).
  generalize dependent (TargetBlockRate initial). intros rate E.
  subst initial. unfold Configure. rewrite Hi.
  rewrite StoreFeeConfig_nonnil. cbv zeta. rewrite Hv, Hn.
  eexists; split; [reflexivity|].
  destruct (AllowListConfig_Configure _ _ _) as [s2 e]. reflexivity.
Qed.

(** X15. A fee config the policy refuses stops [Configure] before any
    write: the record to store is the initial one when there is one and the
    chain's otherwise; when [Verify] refuses it, [Configure] returns the
    error wrapped with the message of that branch, and the state it was
    given: no slot is written and the allow list is not configured. *)
Theorem Configure_rejected_by_policy (c : FeeConfigManagerConfig)
    (chainConfig : ChainConfig) (s : S) (blockContext : BlockContext)
    (e : error) :
  Verify (match InitialFeeConfig c with
          | Some initial => initial
          | None => GetFeeConfig chainConfig
          end) = Some e ->
  configure c chainConfig s blockContext =
    Some (s,
          Some (Wrapped
                  (match InitialFeeConfig c with
                   | Some _ => "invalid feeConfig provided"%string
                   | None =>
                       "invalid feeConfig provided in chainConfig"%string
                   end) e)).
Proof.
  intros Hv. unfold Configure, StoreFeeConfig.
  destruct (InitialFeeConfig c) as [initial|]; rewrite Hv; reflexivity.
Qed.

End LifecycleProperties.

(** * The further properties on the example host *)

(** Storing the example record at block 42 and reading it back. *)
Lemma GetStoredFeeConfig_StoreFeeConfig_witness :
  exists s',
    StoreFeeConfig exampleManagerAddress exampleVerify exampleState
      exampleFeeConfig (mkBlockContext (Some 42)) = Some (s', None) /\
    GetStoredFeeConfig exampleManagerAddress s' = Some exampleFeeConfig /\
    GetFeeConfigLastChangedAt exampleManagerAddress s' = Some 42.
Proof.
  destruct (GetStoredFeeConfig_StoreFeeConfig (S := AssocState)
              exampleManagerAddress exampleVerify exampleState
              exampleFeeConfig (mkBlockContext (Some 42)) 42)
    as (s' & Hs & Hg & _ & Hn).
  - unfold representable, exampleFeeConfig; simpl; lia.
  - vm_compute. reflexivity.
  - reflexivity.
  - exists s'. split; [exact Hs|]. split; [exact Hg|]. apply Hn. lia.
Defined.

(** Storing the example record leaves the role slot of caller B alone. *)
Lemma StoreFeeConfig_frame_witness :
  exists s',
    StoreFeeConfig exampleManagerAddress exampleVerify exampleState
      exampleFeeConfig (mkBlockContext (Some 42)) = Some (s', None) /\
    GetState s' exampleManagerAddress (addressSlotKey callerB) =
      GetState exampleState exampleManagerAddress (addressSlotKey callerB).
Proof.
  eexists. split; [vm_compute; reflexivity|].
  apply (StoreFeeConfig_frame (S := AssocState) exampleManagerAddress
           exampleVerify exampleState _ exampleFeeConfig
           (mkBlockContext (Some 42)) None exampleManagerAddress
           (addressSlotKey callerB)).
  - vm_compute. reflexivity.
  - right. vm_compute. intuition discriminate.
Defined.

(** The rejected record first, the example record second: as the example
    record alone. *)
Lemma StoreFeeConfig_overwrites_witness :
  exists s1 s12 s2,
    StoreFeeConfig exampleManagerAddress (fun _ => None) exampleState
      rejectedFeeConfig (mkBlockContext (Some 41)) = Some (s1, None) /\
    StoreFeeConfig exampleManagerAddress (fun _ => None) s1
      exampleFeeConfig (mkBlockContext (Some 42)) = Some (s12, None) /\
    StoreFeeConfig exampleManagerAddress (fun _ => None) exampleState
      exampleFeeConfig (mkBlockContext (Some 42)) = Some (s2, None) /\
    forall a k, GetState s12 a k = GetState s2 a k.
Proof.
  apply (StoreFeeConfig_overwrites (S := AssocState) exampleManagerAddress
           (fun _ => None) exampleState rejectedFeeConfig exampleFeeConfig
           (mkBlockContext (Some 41)) (mkBlockContext (Some 42)) 41 42);
    try reflexivity;
    unfold noNilField; simpl; repeat split; discriminate.
Defined.

(** The getters on the example state, which has no fee config yet. *)
Lemma getters_output_length_witness :
  (exists out,
     exampleGetFeeConfig (exampleContext exampleState None) callerC [] []
       40000%N true =
       Some ((Some out,
              (40000 - GetFeeConfigGasCost exampleReadGasCostPerSlot)%N,
              None), exampleState) /\
     length out = 256%nat) /\
  (exists out,
     exampleGetFeeConfigLastChangedAt (exampleContext exampleState None)
       callerC [] [] 5000%N true =
       Some ((Some out,
              (5000 - GetLastChangedAtGasCost exampleReadGasCostPerSlot)%N,
              None), exampleState) /\
     length out = 32%nat).
Proof.
  apply (getters_output_length (S := AssocState) exampleManagerAddress
           exampleReadGasCostPerSlot exampleState (mkBlockContext None)
           callerC [] [] 40000%N 5000%N true);
    vm_compute; discriminate.
Defined.

Lemma UnpackFeeConfigInput_getFeeConfig_witness :
  exists out feeConfig,
    exampleGetFeeConfig (exampleContext exampleState None) callerC [] []
      40000%N true =
      Some ((Some out,
             (40000 - GetFeeConfigGasCost exampleReadGasCostPerSlot)%N,
             None), exampleState) /\
    GetStoredFeeConfig exampleManagerAddress exampleState =
      Some feeConfig /\
    UnpackFeeConfigInput out = Some (feeConfig, None).
Proof.
  apply (UnpackFeeConfigInput_getFeeConfig (S := AssocState)
           exampleManagerAddress exampleReadGasCostPerSlot exampleState
           (mkBlockContext None) callerC [] [] 40000%N true).
  - intros i Hi. cbn [In] in Hi.
    destruct Hi as [<-|[<-|[<-|[<-|[<-|[<-|[<-|[<-|[]]]]]]]]];
      vm_compute; reflexivity.
  - vm_compute. discriminate.
Defined.

(** Caller B sends the record with the zero denominator. *)
Lemma setFeeConfig_rejected_by_policy_witness :
  exampleSetFeeConfig (exampleContext exampleState (Some 42)) callerB []
    rejectedInput 180000%N false =
    Some ((None, (180000 - SetFeeConfigGasCost exampleWriteGasCostPerSlot)%N,
           Some (ErrInvalidFeeConfig "zero denominator"%string)),
          exampleState).
Proof.
  apply (setFeeConfig_rejected_by_policy (S := AssocState)
           exampleManagerAddress exampleWriteGasCostPerSlot exampleVerify
           storedAllowListStatus exampleState (mkBlockContext (Some 42))
           callerB [] rejectedInput 180000%N rejectedFeeConfig).
  - vm_compute. reflexivity.
  - vm_compute. discriminate.
  - vm_compute. reflexivity.
  - vm_compute. reflexivity.
Defined.

(** Caller B sends the input with [2^64 + 2] in the second word: the call
    succeeds, and [getFeeConfig] returns the example input, with [2]. *)
Lemma getFeeConfig_setFeeConfig_witness :
  exists s',
    exampleSetFeeConfig (exampleContext exampleState (Some 42)) callerB []
      overflowInput 180000%N false =
      Some ((Some [],
             (180000 - SetFeeConfigGasCost exampleWriteGasCostPerSlot)%N,
             None), s') /\
    GetStoredFeeConfig exampleManagerAddress s' = Some exampleFeeConfig /\
    exampleGetFeeConfig (exampleContext s' None) callerC [] [] 40000%N true =
      Some ((Some exampleInput,
             (40000 - GetFeeConfigGasCost exampleReadGasCostPerSlot)%N,
             None), s').
Proof.
  destruct (getFeeConfig_setFeeConfig (S := AssocState)
              exampleManagerAddress exampleWriteGasCostPerSlot
              exampleReadGasCostPerSlot exampleVerify storedAllowListStatus
              exampleState (mkBlockContext (Some 42)) callerB []
              overflowInput 180000%N exampleFeeConfig 42)
    as (s' & out & Hset & Hst & _ & Hout & Hget).
  - vm_compute. reflexivity.
  - vm_compute. discriminate.
  - vm_compute. reflexivity.
  - vm_compute. reflexivity.
  - reflexivity.
  - assert (E : out = exampleInput)
      by (rewrite Hout; vm_compute; reflexivity).
    subst out. exists s'. split; [exact Hset|]. split; [exact Hst|].
    apply Hget. vm_compute. discriminate.
Defined.

(** The example upgrade at block 1: the example record is stored and the
    allow list is configured on the state after the store. *)
Lemma Configure_after_Verify_witness :
  exists s1,
    StoreFeeConfig exampleManagerAddress exampleVerify [] exampleFeeConfig
      (mkBlockContext (Some 1)) = Some (s1, None) /\
    exampleConfigure exampleUpgrade (mkChainConfig rejectedFeeConfig) []
      (mkBlockContext (Some 1)) =
      Some (fst (exampleAllowListConfigure (allowListConfig exampleUpgrade)
                   s1 exampleManagerAddress),
            option_map Unwrapped
              (snd (exampleAllowListConfigure
                      (allowListConfig exampleUpgrade) s1
                      exampleManagerAddress))).
Proof.
  apply (Configure_after_Verify (S := AssocState) exampleManagerAddress
           exampleVerify (fun _ => None) exampleAllowListConfigure
           exampleUpgrade (mkChainConfig rejectedFeeConfig) []
           (mkBlockContext (Some 1)) exampleFeeConfig 1).
  - vm_compute. reflexivity.
  - reflexivity.
  - unfold noNilField; simpl; repeat split; discriminate.
  - reflexivity.
Defined.

(** An upgrade without an initial fee config on a chain whose fee config has
    a zero denominator. *)
Lemma Configure_rejected_by_policy_witness :
  exampleConfigure (NewFeeManagerConfig (Some 0) [] [callerB] None)
    (mkChainConfig rejectedFeeConfig) [] (mkBlockContext (Some 1)) =
    Some ([],
          Some (Wrapped "invalid feeConfig provided in chainConfig"%string
                  (ErrInvalidFeeConfig "zero denominator"%string))).
Proof.
  apply (Configure_rejected_by_policy (S := AssocState)
           exampleManagerAddress exampleVerify exampleAllowListConfigure
           (NewFeeManagerConfig (Some 0) [] [callerB] None)
           (mkChainConfig rejectedFeeConfig) [] (mkBlockContext (Some 1))
           (ErrInvalidFeeConfig "zero denominator"%string)).
  vm_compute. reflexivity.
Defined.

(** X16. What the decoder returns is well formed: a record that
    [UnpackFeeConfigInput] returns without an error has no nil field, every
    field in the range of a 256-bit word and the target block rate in the
    64-bit range; so it packs without a panic and unpacks to itself. *)
Theorem UnpackFeeConfigInput_representable (input : bytes)
    (feeConfig : FeeConfig) :
  UnpackFeeConfigInput input = Some (feeConfig, None) ->
  representable feeConfig.
Proof.
  intros Hun.
  assert (Hl : length input = feeConfigInputLen).
  { destruct (Nat.eq_dec (length input) feeConfigInputLen) as [Hl|Hl];
      [exact Hl|].
    rewrite (UnpackFeeConfigInput_short input Hl) in Hun.
    apply Some_inj_pair in Hun. destruct Hun as [_ Hno]. discriminate Hno. }
  rewrite (UnpackFeeConfigInput_words input Hl) in Hun.
  apply Some_inj_pair in Hun. destruct Hun as [Hfc _]. subst feeConfig.
  assert (Hw : forall k, (k < 8)%nat ->
               0 <= SetBytes (returnPackedHash input k) < 2 ^ 256).
  { intros k Hk. split; [apply SetBytes_nonneg|].
    pose proof (SetBytes_bound (returnPackedHash input k)) as Hb.
    rewrite (input_word_length input k Hl Hk) in Hb. exact Hb. }
  unfold representable.
  cbn [inWord GasLimit TargetBlockRate MinBaseFee TargetGas
       BaseFeeChangeDenominator MinBlockGasCost MaxBlockGasCost
       BlockGasCostStep].
  repeat split; try (apply Hw; lia); apply Uint64_range.
Qed.

Lemma UnpackFeeConfigInput_representable_witness :
  representable exampleFeeConfig.
Proof.
  apply (UnpackFeeConfigInput_representable overflowInput exampleFeeConfig).
  vm_compute. reflexivity.
Defined.
